(** * RGB / depth synchronisation sample: the application object

    Shallow embedding of [rgb_depth_sync_application.cc]
    (class [rgb_depth_sync::SynchronizationApplication]).

    The class is glue around three things that live outside the file:
    the Tango client and support C API, the OpenGL helper classes
    [ColorImage], [DepthImage] and [Scene], and [glm].  They are taken as
    a [Platform]: the types and constants the headers declare, the
    behaviour of every API function as a transition on an outside world
    [World], and the methods of the helper classes as transitions on the
    member object and that world.  Every method of the application is a
    computation in a small monad that threads the application's fields and
    the world and records, in order, each outside call with its arguments
    and what came back.  A run either returns a value or dies: [Render]
    reads [render_buffer_->timestamp] without a test, and a run in which
    that pointer does not refer to a readable point cloud stops there. *)

From Stdlib Require Import ZArith NArith List String Bool Lia.
Import ListNotations.
Local Open Scope string_scope.
Local Open Scope list_scope.
Local Open Scope Z_scope.

Set Implicit Arguments.

(** ** C-level data *)

(** Pointers ([TangoConfig], [TangoSupportPointCloudManager*],
    [TangoXYZij*], [JNIEnv*], [jobject]) are addresses; [nullptr] is 0. *)
Definition ptr := N.
Definition nullptr : ptr := 0%N.

Definition is_null (p : ptr) : bool := N.eqb p nullptr.

(** The Tango enumerations ([TangoErrorType], [TangoPoseStatusType],
    [TangoCoordinateFrameType], [TangoCameraId], [TangoConfigType]) are C
    enums, that is, integers. *)
Definition TangoErrorType := Z.
Definition TangoPoseStatusType := Z.
Definition TangoCoordinateFrameType := Z.
Definition TangoCameraId := Z.
Definition TangoConfigType := Z.
Definition GLuint := N.

(** [TangoCoordinateFramePair]: which relative pose to return. *)
Record TangoCoordinateFramePair := {
  base : TangoCoordinateFrameType;
  target : TangoCoordinateFrameType
}.

(** ** What the file takes from outside *)

Class Platform := {
  (** the outside world: the Tango service, the point clouds it owns, the
      GL context *)
  World : Type;

  (** [double] time stamps with the literal [0.0], [float] values with the
      literal [0.0] and [static_cast<float>] of an [int] *)
  Timestamp : Type;
  timestamp_0_0 : Timestamp;
  cfloat : Type;
  float_0_0 : cfloat;
  float_of_int : Z -> cfloat;

  (** [glm::mat4] and its [operator*] *)
  mat4 : Type;
  mat4_mul : mat4 -> mat4 -> mat4;

  (** [TangoPoseData], its [status_code] field, and
      [util::GetMatrixFromPose] *)
  TangoPoseData : Type;
  status_code : TangoPoseData -> TangoPoseStatusType;
  GetMatrixFromPose : TangoPoseData -> mat4;
  TangoCameraIntrinsics : Type;

  (** enumerators the file names *)
  TANGO_SUCCESS : TangoErrorType;
  TANGO_POSE_VALID : TangoPoseStatusType;
  TANGO_COORDINATE_FRAME_START_OF_SERVICE : TangoCoordinateFrameType;
  TANGO_COORDINATE_FRAME_CAMERA_DEPTH : TangoCoordinateFrameType;
  TANGO_COORDINATE_FRAME_CAMERA_COLOR : TangoCoordinateFrameType;
  TANGO_CAMERA_COLOR : TangoCameraId;
  TANGO_CONFIG_DEFAULT : TangoConfigType;

  (** [tango_gl::conversions::opengl_world_T_tango_world()] *)
  opengl_world_T_tango_world : mat4;

  (** the Tango API: each function maps its arguments and the world to
      what it returns, what it leaves in its out-parameters, and the new
      world.  An out-parameter that was initialised before the call is
      also an argument.  The callback context ([this]) and the callback
      pointers handed to [TangoService_connect],
      [TangoService_connectTextureId] and
      [TangoService_connectOnXYZijAvailable] are left out: the service
      only hands them back. *)
  api_TangoSupport_updatePointCloud :
    ptr -> ptr -> World -> TangoErrorType * World;
  api_TangoConfig_free : ptr -> World -> World;
  api_TangoSupport_freePointCloudManager :
    ptr -> World -> TangoErrorType * World;
  api_TangoSupport_GetTangoVersion :
    ptr -> ptr -> World -> (TangoErrorType * Z) * World;
  api_TangoService_setBinder : ptr -> ptr -> World -> TangoErrorType * World;
  api_TangoService_getConfig : TangoConfigType -> World -> ptr * World;
  api_TangoConfig_setBool :
    ptr -> string -> bool -> World -> TangoErrorType * World;
  api_TangoConfig_getInt32 :
    ptr -> string -> World -> (TangoErrorType * Z) * World;
  api_TangoSupport_createPointCloudManager :
    Z -> ptr -> World -> (TangoErrorType * ptr) * World;
  api_TangoService_connectTextureId :
    TangoCameraId -> GLuint -> World -> TangoErrorType * World;
  api_TangoService_connectOnXYZijAvailable : World -> TangoErrorType * World;
  api_TangoService_connect : ptr -> World -> TangoErrorType * World;
  api_TangoService_getCameraIntrinsics :
    TangoCameraId -> World -> (TangoErrorType * TangoCameraIntrinsics) * World;
  api_TangoService_disconnect : World -> World;
  api_TangoSupport_getLatestPointCloudAndNewDataFlag :
    ptr -> ptr -> bool -> World -> (TangoErrorType * ptr * bool) * World;
  api_TangoService_updateTexture :
    TangoCameraId -> Timestamp -> World -> (TangoErrorType * Timestamp) * World;
  api_TangoService_getPoseAtTime :
    Timestamp -> TangoCoordinateFramePair -> World ->
    (TangoErrorType * TangoPoseData) * World;

  (** reading the [timestamp] field of the [TangoXYZij] a pointer refers
      to: [None] when the pointer does not refer to a readable
      [TangoXYZij] in this world, as the null pointer never does *)
  XYZij_timestamp : ptr -> World -> option Timestamp;
  XYZij_timestamp_null : forall w, XYZij_timestamp nullptr w = None;

  (** the helper classes: default constructors, getters, and the methods
      the application calls *)
  ColorImage : Type;
  DepthImage : Type;
  Scene : Type;
  ColorImage_new : ColorImage;
  DepthImage_new : DepthImage;
  Scene_new : Scene;
  ColorImage_GetTextureId : ColorImage -> GLuint;
  DepthImage_GetTextureId : DepthImage -> GLuint;
  api_ColorImage_InitializeGL : ColorImage -> World -> ColorImage * World;
  api_DepthImage_InitializeGL : DepthImage -> World -> DepthImage * World;
  api_Scene_InitializeGL : Scene -> World -> Scene * World;
  api_DepthImage_SetCameraIntrinsics :
    TangoCameraIntrinsics -> DepthImage -> World -> DepthImage * World;
  api_Scene_SetCameraIntrinsics :
    TangoCameraIntrinsics -> Scene -> World -> Scene * World;
  api_Scene_SetupViewPort : Z -> Z -> Scene -> World -> Scene * World;
  api_DepthImage_RenderDepthToTexture :
    mat4 -> ptr -> bool -> DepthImage -> World -> DepthImage * World;
  api_DepthImage_UpdateAndUpsampleDepth :
    mat4 -> ptr -> DepthImage -> World -> DepthImage * World;
  api_Scene_Render : GLuint -> GLuint -> Scene -> World -> Scene * World;
  api_Scene_SetDepthAlphaValue : cfloat -> Scene -> World -> Scene * World
}.

Section Application.

Context {P : Platform}.

(** ** The application object *)

Record App := {
  color_image_ : ColorImage;
  depth_image_ : DepthImage;
  main_scene_ : Scene;
  tango_config_ : ptr;
  OW_T_SS_ : mat4;
  gpu_upsample_ : bool;
  point_cloud_manager_ : ptr;
  render_buffer_ : ptr;
  screen_width_ : cfloat;
  screen_height_ : cfloat
}.

Definition set_color_image_ (v : ColorImage) (a : App) : App :=
  {| color_image_ := v; depth_image_ := depth_image_ a;
     main_scene_ := main_scene_ a; tango_config_ := tango_config_ a;
     OW_T_SS_ := OW_T_SS_ a; gpu_upsample_ := gpu_upsample_ a;
     point_cloud_manager_ := point_cloud_manager_ a;
     render_buffer_ := render_buffer_ a;
     screen_width_ := screen_width_ a; screen_height_ := screen_height_ a |}.

Definition set_depth_image_ (v : DepthImage) (a : App) : App :=
  {| color_image_ := color_image_ a; depth_image_ := v;
     main_scene_ := main_scene_ a; tango_config_ := tango_config_ a;
     OW_T_SS_ := OW_T_SS_ a; gpu_upsample_ := gpu_upsample_ a;
     point_cloud_manager_ := point_cloud_manager_ a;
     render_buffer_ := render_buffer_ a;
     screen_width_ := screen_width_ a; screen_height_ := screen_height_ a |}.

Definition set_main_scene_ (v : Scene) (a : App) : App :=
  {| color_image_ := color_image_ a; depth_image_ := depth_image_ a;
     main_scene_ := v; tango_config_ := tango_config_ a;
     OW_T_SS_ := OW_T_SS_ a; gpu_upsample_ := gpu_upsample_ a;
     point_cloud_manager_ := point_cloud_manager_ a;
     render_buffer_ := render_buffer_ a;
     screen_width_ := screen_width_ a; screen_height_ := screen_height_ a |}.

Definition set_tango_config_ (v : ptr) (a : App) : App :=
  {| color_image_ := color_image_ a; depth_image_ := depth_image_ a;
     main_scene_ := main_scene_ a; tango_config_ := v;
     OW_T_SS_ := OW_T_SS_ a; gpu_upsample_ := gpu_upsample_ a;
     point_cloud_manager_ := point_cloud_manager_ a;
     render_buffer_ := render_buffer_ a;
     screen_width_ := screen_width_ a; screen_height_ := screen_height_ a |}.

Definition set_gpu_upsample_ (v : bool) (a : App) : App :=
  {| color_image_ := color_image_ a; depth_image_ := depth_image_ a;
     main_scene_ := main_scene_ a; tango_config_ := tango_config_ a;
     OW_T_SS_ := OW_T_SS_ a; gpu_upsample_ := v;
     point_cloud_manager_ := point_cloud_manager_ a;
     render_buffer_ := render_buffer_ a;
     screen_width_ := screen_width_ a; screen_height_ := screen_height_ a |}.

Definition set_point_cloud_manager_ (v : ptr) (a : App) : App :=
  {| color_image_ := color_image_ a; depth_image_ := depth_image_ a;
     main_scene_ := main_scene_ a; tango_config_ := tango_config_ a;
     OW_T_SS_ := OW_T_SS_ a; gpu_upsample_ := gpu_upsample_ a;
     point_cloud_manager_ := v;
     render_buffer_ := render_buffer_ a;
     screen_width_ := screen_width_ a; screen_height_ := screen_height_ a |}.

Definition set_render_buffer_ (v : ptr) (a : App) : App :=
  {| color_image_ := color_image_ a; depth_image_ := depth_image_ a;
     main_scene_ := main_scene_ a; tango_config_ := tango_config_ a;
     OW_T_SS_ := OW_T_SS_ a; gpu_upsample_ := gpu_upsample_ a;
     point_cloud_manager_ := point_cloud_manager_ a;
     render_buffer_ := v;
     screen_width_ := screen_width_ a; screen_height_ := screen_height_ a |}.

Definition set_screen_width_ (v : cfloat) (a : App) : App :=
  {| color_image_ := color_image_ a; depth_image_ := depth_image_ a;
     main_scene_ := main_scene_ a; tango_config_ := tango_config_ a;
     OW_T_SS_ := OW_T_SS_ a; gpu_upsample_ := gpu_upsample_ a;
     point_cloud_manager_ := point_cloud_manager_ a;
     render_buffer_ := render_buffer_ a;
     screen_width_ := v; screen_height_ := screen_height_ a |}.

Definition set_screen_height_ (v : cfloat) (a : App) : App :=
  {| color_image_ := color_image_ a; depth_image_ := depth_image_ a;
     main_scene_ := main_scene_ a; tango_config_ := tango_config_ a;
     OW_T_SS_ := OW_T_SS_ a; gpu_upsample_ := gpu_upsample_ a;
     point_cloud_manager_ := point_cloud_manager_ a;
     render_buffer_ := render_buffer_ a;
     screen_width_ := screen_width_ a; screen_height_ := v |}.

(** ** The record of outside calls *)

(** An argument of a [LOGE] format: [%d] or [%lf]. *)
Inductive LogArg :=
| LogInt (z : Z)
| LogDouble (t : Timestamp).

Inductive Event :=
(* Tango API calls: arguments, then what came back *)
| EvUpdatePointCloud (manager xyz_ij : ptr) (ret : TangoErrorType)
| EvConfigFree (config : ptr)
| EvFreePointCloudManager (manager : ptr) (ret : TangoErrorType)
| EvGetTangoVersion (env activity : ptr) (ret : TangoErrorType) (version : Z)
| EvSetBinder (env binder : ptr) (ret : TangoErrorType)
| EvGetConfig (kind : TangoConfigType) (config : ptr)
| EvSetBool (config : ptr) (key : string) (value : bool) (ret : TangoErrorType)
| EvGetInt32 (config : ptr) (key : string) (ret : TangoErrorType) (value : Z)
| EvCreatePointCloudManager (max_points : Z) (ret : TangoErrorType)
    (manager : ptr)
| EvConnectTextureId (id : TangoCameraId) (tex : GLuint) (ret : TangoErrorType)
| EvConnectOnXYZijAvailable (ret : TangoErrorType)
| EvConnect (config : ptr) (ret : TangoErrorType)
| EvGetCameraIntrinsics (id : TangoCameraId) (ret : TangoErrorType)
    (intrinsics : TangoCameraIntrinsics)
| EvDisconnect
| EvGetLatestPointCloud (manager : ptr) (ret : TangoErrorType)
    (latest : ptr) (new_data : bool)
| EvUpdateTexture (id : TangoCameraId) (ret : TangoErrorType)
    (timestamp : Timestamp)
| EvGetPoseAtTime (timestamp : Timestamp) (frame : TangoCoordinateFramePair)
    (ret : TangoErrorType) (pose : TangoPoseData)
(* reading [buffer->timestamp] *)
| EvReadTimestamp (buffer : ptr) (timestamp : Timestamp)
(* methods of the member objects *)
| EvColorInitializeGL
| EvDepthInitializeGL
| EvSceneInitializeGL
| EvDepthSetCameraIntrinsics (intrinsics : TangoCameraIntrinsics)
| EvSceneSetCameraIntrinsics (intrinsics : TangoCameraIntrinsics)
| EvSetupViewPort (w h : Z)
| EvRenderDepthToTexture (color_t1_T_depth_t0 : mat4) (buffer : ptr)
    (new_points : bool)
| EvUpdateAndUpsampleDepth (color_t1_T_depth_t0 : mat4) (buffer : ptr)
| EvSceneRender (color_texture depth_texture : GLuint)
| EvSetDepthAlphaValue (alpha : cfloat)
(* the logging macro *)
| EvLOGE (format : string) (args : list LogArg).

(** ** The monad of the methods *)

(** The outcome of a run: the value returned, or [None] when the run
    died; the application and the world as the run left them (at the
    point of death, for a run that died); the outside calls made. *)
Record Res (A : Type) := {
  value : option A;
  app' : App;
  world' : World;
  events : list Event
}.

Definition M (A : Type) := App -> World -> Res A.

Definition ret {A} (x : A) : M A :=
  fun a w => {| value := Some x; app' := a; world' := w; events := [] |}.

(** Sequencing: nothing runs after a run that died. *)
Definition bind {A B} (m : M A) (k : A -> M B) : M B :=
  fun a w =>
    match m a w with
    | {| value := Some x; app' := a1; world' := w1; events := tr1 |} =>
        match k x a1 w1 with
        | {| value := y; app' := a2; world' := w2; events := tr2 |} =>
            {| value := y; app' := a2; world' := w2; events := tr1 ++ tr2 |}
        end
    | {| value := None; app' := a1; world' := w1; events := tr1 |} =>
        {| value := None; app' := a1; world' := w1; events := tr1 |}
    end.

(** read a field of [*this] *)
Definition field {A} (f : App -> A) : M A :=
  fun a w => {| value := Some (f a); app' := a; world' := w; events := [] |}.

(** assign a field of [*this] *)
Definition assign (upd : App -> App) : M unit :=
  fun a w =>
    {| value := Some tt; app' := upd a; world' := w; events := [] |}.

(** call an API function *)
Definition sdk {R} (call : World -> R * World) (ev : R -> Event) : M R :=
  fun a w =>
    let '(r, w1) := call w in
    {| value := Some r; app' := a; world' := w1; events := [ev r] |}.

(** call an API function that returns nothing *)
Definition sdk_void (call : World -> World) (ev : Event) : M unit :=
  fun a w =>
    {| value := Some tt; app' := a; world' := call w; events := [ev] |}.

(** read through a pointer into memory the world owns: the run dies when
    there is nothing to read *)
Definition deref {R} (read : World -> option R) (ev : R -> Event) : M R :=
  fun a w =>
    match read w with
    | Some x => {| value := Some x; app' := a; world' := w; events := [ev x] |}
    | None => {| value := None; app' := a; world' := w; events := [] |}
    end.

(** call a method on a member object *)
Definition method {O} (get : App -> O) (set : O -> App -> App)
    (call : O -> World -> O * World) (ev : Event) : M unit :=
  fun a w =>
    let '(o, w1) := call (get a) w in
    {| value := Some tt; app' := set o a; world' := w1; events := [ev] |}.

Definition LOGE (format : string) (args : list LogArg) : M unit :=
  fun a w =>
    {| value := Some tt; app' := a; world' := w;
       events := [EvLOGE format args] |}.

Definition when (b : bool) (m : M unit) : M unit :=
  if b then m else ret tt.

End Application.

Declare Scope app_scope.
Delimit Scope app_scope with app.
Notation "x <- m ;; k" := (bind m (fun x => k))
  (at level 61, m at next level, right associativity) : app_scope.
Notation "' pat <- m ;; k" := (bind m (fun x => match x with pat => k end))
  (at level 61, pat pattern, m at next level, right associativity) : app_scope.
Notation "m ;; k" := (bind m (fun _ => k))
  (at level 61, right associativity) : app_scope.
Notation "a != b" := (negb (Z.eqb a b)) (at level 70) : app_scope.
Local Open Scope app_scope.

Section Methods.

Context {P : Platform}.

(** ** The outside calls, in the monad *)

Definition TangoSupport_updatePointCloud (manager xyz_ij : ptr)
  : M TangoErrorType :=
  sdk (api_TangoSupport_updatePointCloud manager xyz_ij)
      (EvUpdatePointCloud manager xyz_ij).

Definition TangoConfig_free (config : ptr) : M unit :=
  sdk_void (api_TangoConfig_free config) (EvConfigFree config).

Definition TangoSupport_freePointCloudManager (manager : ptr)
  : M TangoErrorType :=
  sdk (api_TangoSupport_freePointCloudManager manager)
      (EvFreePointCloudManager manager).

Definition TangoSupport_GetTangoVersion (env activity : ptr)
  : M (TangoErrorType * Z) :=
  sdk (api_TangoSupport_GetTangoVersion env activity)
      (fun r => EvGetTangoVersion env activity (fst r) (snd r)).

Definition TangoService_setBinder (env binder : ptr) : M TangoErrorType :=
  sdk (api_TangoService_setBinder env binder) (EvSetBinder env binder).

Definition TangoService_getConfig (kind : TangoConfigType) : M ptr :=
  sdk (api_TangoService_getConfig kind) (EvGetConfig kind).

Definition TangoConfig_setBool (config : ptr) (key : string) (v : bool)
  : M TangoErrorType :=
  sdk (api_TangoConfig_setBool config key v) (EvSetBool config key v).

Definition TangoConfig_getInt32 (config : ptr) (key : string)
  : M (TangoErrorType * Z) :=
  sdk (api_TangoConfig_getInt32 config key)
      (fun r => EvGetInt32 config key (fst r) (snd r)).

Definition TangoSupport_createPointCloudManager (max_points : Z)
    (manager : ptr) : M (TangoErrorType * ptr) :=
  sdk (api_TangoSupport_createPointCloudManager max_points manager)
      (fun r => EvCreatePointCloudManager max_points (fst r) (snd r)).

Definition TangoService_connectTextureId (id : TangoCameraId) (tex : GLuint)
  : M TangoErrorType :=
  sdk (api_TangoService_connectTextureId id tex) (EvConnectTextureId id tex).

Definition TangoService_connectOnXYZijAvailable : M TangoErrorType :=
  sdk api_TangoService_connectOnXYZijAvailable EvConnectOnXYZijAvailable.

Definition TangoService_connect (config : ptr) : M TangoErrorType :=
  sdk (api_TangoService_connect config) (EvConnect config).

Definition TangoService_getCameraIntrinsics (id : TangoCameraId)
  : M (TangoErrorType * TangoCameraIntrinsics) :=
  sdk (api_TangoService_getCameraIntrinsics id)
      (fun r => EvGetCameraIntrinsics id (fst r) (snd r)).

Definition TangoService_disconnect : M unit :=
  sdk_void api_TangoService_disconnect EvDisconnect.

Definition TangoSupport_getLatestPointCloudAndNewDataFlag
    (manager latest : ptr) (new_data : bool)
  : M (TangoErrorType * ptr * bool) :=
  sdk (api_TangoSupport_getLatestPointCloudAndNewDataFlag
         manager latest new_data)
      (fun r => EvGetLatestPointCloud manager (fst (fst r)) (snd (fst r))
                  (snd r)).

Definition TangoService_updateTexture (id : TangoCameraId)
    (timestamp : Timestamp) : M (TangoErrorType * Timestamp) :=
  sdk (api_TangoService_updateTexture id timestamp)
      (fun r => EvUpdateTexture id (fst r) (snd r)).

Definition TangoService_getPoseAtTime (timestamp : Timestamp)
    (frame : TangoCoordinateFramePair) : M (TangoErrorType * TangoPoseData) :=
  sdk (api_TangoService_getPoseAtTime timestamp frame)
      (fun r => EvGetPoseAtTime timestamp frame (fst r) (snd r)).

(** [buffer->timestamp] *)
Definition read_timestamp (buffer : ptr) : M Timestamp :=
  deref (XYZij_timestamp buffer) (EvReadTimestamp buffer).

Definition color_image_InitializeGL : M unit :=
  method color_image_ set_color_image_ api_ColorImage_InitializeGL
         EvColorInitializeGL.

Definition depth_image_InitializeGL : M unit :=
  method depth_image_ set_depth_image_ api_DepthImage_InitializeGL
         EvDepthInitializeGL.

Definition main_scene_InitializeGL : M unit :=
  method main_scene_ set_main_scene_ api_Scene_InitializeGL
         EvSceneInitializeGL.

Definition depth_image_SetCameraIntrinsics (i : TangoCameraIntrinsics)
  : M unit :=
  method depth_image_ set_depth_image_ (api_DepthImage_SetCameraIntrinsics i)
         (EvDepthSetCameraIntrinsics i).

Definition main_scene_SetCameraIntrinsics (i : TangoCameraIntrinsics)
  : M unit :=
  method main_scene_ set_main_scene_ (api_Scene_SetCameraIntrinsics i)
         (EvSceneSetCameraIntrinsics i).

Definition main_scene_SetupViewPort (w h : Z) : M unit :=
  method main_scene_ set_main_scene_ (api_Scene_SetupViewPort w h)
         (EvSetupViewPort w h).

Definition depth_image_RenderDepthToTexture (m : mat4) (buffer : ptr)
    (new_points : bool) : M unit :=
  method depth_image_ set_depth_image_
         (api_DepthImage_RenderDepthToTexture m buffer new_points)
         (EvRenderDepthToTexture m buffer new_points).

Definition depth_image_UpdateAndUpsampleDepth (m : mat4) (buffer : ptr)
  : M unit :=
  method depth_image_ set_depth_image_
         (api_DepthImage_UpdateAndUpsampleDepth m buffer)
         (EvUpdateAndUpsampleDepth m buffer).

Definition main_scene_Render (color_texture depth_texture : GLuint) : M unit :=
  method main_scene_ set_main_scene_
         (api_Scene_Render color_texture depth_texture)
         (EvSceneRender color_texture depth_texture).

Definition main_scene_SetDepthAlphaValue (alpha : cfloat) : M unit :=
  method main_scene_ set_main_scene_ (api_Scene_SetDepthAlphaValue alpha)
         (EvSetDepthAlphaValue alpha).

(** ** The methods of [SynchronizationApplication] *)

Definition OnXYZijAvailable (xyz_ij : ptr) : M unit :=
  manager <- field point_cloud_manager_ ;;
  TangoSupport_updatePointCloud manager xyz_ij ;;
  ret tt.

(** The router casts its context back to the application and forwards. *)
Definition OnXYZijAvailableRouter (xyz_ij : ptr) : M unit :=
  OnXYZijAvailable xyz_ij.

(** The constructor names five members in its initialiser list; the
    others keep what [storage] holds. *)
Definition SynchronizationApplication (storage : App) : App :=
  {| color_image_ := ColorImage_new;
     depth_image_ := DepthImage_new;
     main_scene_ := Scene_new;
     tango_config_ := tango_config_ storage;
     OW_T_SS_ := opengl_world_T_tango_world;
     gpu_upsample_ := false;
     point_cloud_manager_ := point_cloud_manager_ storage;
     render_buffer_ := render_buffer_ storage;
     screen_width_ := screen_width_ storage;
     screen_height_ := screen_height_ storage |}.

(** The destructor. *)
Definition SynchronizationApplication_dtor : M unit :=
  config <- field tango_config_ ;;
  when (negb (is_null config)) (TangoConfig_free config) ;;
  manager <- field point_cloud_manager_ ;;
  TangoSupport_freePointCloudManager manager ;;
  assign (set_point_cloud_manager_ nullptr).

Definition CheckTangoVersion (env activity : ptr) (min_tango_version : Z)
  : M bool :=
  '(err, version) <- TangoSupport_GetTangoVersion env activity ;;
  ret (Z.eqb err TANGO_SUCCESS && (version >=? min_tango_version)).

Definition OnTangoServiceConnected (env binder : ptr) : M unit :=
  r <- TangoService_setBinder env binder ;;
  when (r != TANGO_SUCCESS)
    (LOGE "SynchronizationApplication: Failed to set Tango service binder witherror code: %d"
          [LogInt r]).

Definition SetDepthAlphaValue (alpha : cfloat) : M unit :=
  main_scene_SetDepthAlphaValue alpha.

Definition SetGPUUpsample (on : bool) : M unit :=
  assign (set_gpu_upsample_ on).

Definition TangoSetupConfig : M bool :=
  SetDepthAlphaValue float_0_0 ;;
  SetGPUUpsample false ;;
  config <- field tango_config_ ;;
  if negb (is_null config) then ret true else
  config <- TangoService_getConfig TANGO_CONFIG_DEFAULT ;;
  assign (set_tango_config_ config) ;;
  if is_null config then ret false else
  err <- TangoConfig_setBool config "config_enable_depth" true ;;
  if err != TANGO_SUCCESS then
    LOGE "Failed to enable depth." [] ;; ret false
  else
  err <- TangoConfig_setBool config "config_enable_color_camera" true ;;
  if err != TANGO_SUCCESS then
    LOGE "Failed to set 'enable_color_camera' configuration flag with error code: %d"
         [LogInt err] ;;
    ret false
  else
  err <- TangoConfig_setBool config
           "config_enable_low_latency_imu_integration" true ;;
  if err != TANGO_SUCCESS then
    LOGE "Failed to enable low latency imu integration." [] ;; ret false
  else
  manager <- field point_cloud_manager_ ;;
  if is_null manager then
    '(err, max_point_cloud_elements) <-
       TangoConfig_getInt32 config "max_point_cloud_elements" ;;
    if err != TANGO_SUCCESS then
      LOGE "Failed to query maximum number of point cloud elements." [] ;;
      ret false
    else
    '(err, manager) <-
       TangoSupport_createPointCloudManager max_point_cloud_elements manager ;;
    assign (set_point_cloud_manager_ manager) ;;
    if err != TANGO_SUCCESS then ret false else
    ret true
  else
  ret true.

Definition TangoConnectTexture : M bool :=
  tex <- field (fun a => ColorImage_GetTextureId (color_image_ a)) ;;
  err <- TangoService_connectTextureId TANGO_CAMERA_COLOR tex ;;
  ret (Z.eqb err TANGO_SUCCESS).

Definition TangoConnectCallbacks : M bool :=
  depth_ret <- TangoService_connectOnXYZijAvailable ;;
  ret (Z.eqb depth_ret TANGO_SUCCESS).

Definition TangoConnect : M bool :=
  config <- field tango_config_ ;;
  r <- TangoService_connect config ;;
  if r != TANGO_SUCCESS then
    LOGE "SynchronizationApplication: Failed to connect to the Tango service."
         [] ;;
    ret false
  else
  ret true.

Definition TangoSetIntrinsicsAndExtrinsics : M bool :=
  '(err, color_camera_intrinsics) <-
     TangoService_getCameraIntrinsics TANGO_CAMERA_COLOR ;;
  if err != TANGO_SUCCESS then
    LOGE "SynchronizationApplication: Failed to get the intrinsics for the colorcamera."
         [] ;;
    ret false
  else
  depth_image_SetCameraIntrinsics color_camera_intrinsics ;;
  main_scene_SetCameraIntrinsics color_camera_intrinsics ;;
  ret true.

Definition TangoDisconnect : M unit :=
  TangoService_disconnect.

Definition InitializeGLContent : M unit :=
  depth_image_InitializeGL ;;
  color_image_InitializeGL ;;
  main_scene_InitializeGL.

Definition SetViewPort (width height : Z) : M unit :=
  assign (set_screen_width_ (float_of_int width)) ;;
  assign (set_screen_height_ (float_of_int height)) ;;
  main_scene_SetupViewPort width height.

Definition Render : M unit :=
  let color_timestamp := timestamp_0_0 in
  let depth_timestamp := timestamp_0_0 in
  let new_points := false in
  manager <- field point_cloud_manager_ ;;
  render_buffer <- field render_buffer_ ;;
  '(_, render_buffer, new_points) <-
     TangoSupport_getLatestPointCloudAndNewDataFlag
       manager render_buffer new_points ;;
  assign (set_render_buffer_ render_buffer) ;;
  render_buffer <- field render_buffer_ ;;
  depth_timestamp <- read_timestamp render_buffer ;;
  '(err, color_timestamp) <-
     TangoService_updateTexture TANGO_CAMERA_COLOR color_timestamp ;;
  when (err != TANGO_SUCCESS)
    (LOGE "SynchronizationApplication: Failed to get a color image." []) ;;
  let depth_frame_pair :=
    {| base := TANGO_COORDINATE_FRAME_START_OF_SERVICE;
       target := TANGO_COORDINATE_FRAME_CAMERA_DEPTH |} in
  '(err, pose_start_service_T_depth_camera_t0) <-
     TangoService_getPoseAtTime depth_timestamp depth_frame_pair ;;
  when (err != TANGO_SUCCESS)
    (LOGE "SynchronizationApplication: Could not find a valid pose at time %lf for the depth camera."
          [LogDouble depth_timestamp]) ;;
  let color_frame_pair :=
    {| base := TANGO_COORDINATE_FRAME_CAMERA_COLOR;
       target := TANGO_COORDINATE_FRAME_START_OF_SERVICE |} in
  '(err, pose_color_camera_t1_T_start_service) <-
     TangoService_getPoseAtTime color_timestamp color_frame_pair ;;
  when (err != TANGO_SUCCESS)
    (LOGE "SynchronizationApplication: Could not find a valid pose at time %lf for the color camera."
          [LogDouble color_timestamp]) ;;
  let start_service_T_depth_camera_t0 :=
    GetMatrixFromPose pose_start_service_T_depth_camera_t0 in
  let color_camera_t1_T_start_service :=
    GetMatrixFromPose pose_color_camera_t1_T_start_service in
  if Z.eqb (status_code pose_color_camera_t1_T_start_service)
           TANGO_POSE_VALID then
    if Z.eqb (status_code pose_start_service_T_depth_camera_t0)
             TANGO_POSE_VALID then
      let color_image_t1_T_depth_image_t0 :=
        mat4_mul color_camera_t1_T_start_service
                 start_service_T_depth_camera_t0 in
      gpu_upsample <- field gpu_upsample_ ;;
      render_buffer <- field render_buffer_ ;;
      (if gpu_upsample then
         depth_image_RenderDepthToTexture color_image_t1_T_depth_image_t0
           render_buffer new_points
       else
         depth_image_UpdateAndUpsampleDepth color_image_t1_T_depth_image_t0
           render_buffer) ;;
      color_texture <- field (fun a => ColorImage_GetTextureId (color_image_ a)) ;;
      depth_texture <- field (fun a => DepthImage_GetTextureId (depth_image_ a)) ;;
      main_scene_Render color_texture depth_texture
    else
      LOGE "Invalid pose for ss_t_depth at time: %lf" [LogDouble depth_timestamp]
  else
    LOGE "Invalid pose for ss_t_color at time: %lf" [LogDouble color_timestamp].

End Methods.

Section Operations.

Context {P : Platform}.

(** ** The public operations, as data *)

Inductive Op :=
| OpOnXYZijAvailable (xyz_ij : ptr)
| OpCheckTangoVersion (env activity : ptr) (min_tango_version : Z)
| OpOnTangoServiceConnected (env binder : ptr)
| OpTangoSetupConfig
| OpTangoConnectTexture
| OpTangoConnectCallbacks
| OpTangoConnect
| OpTangoSetIntrinsicsAndExtrinsics
| OpTangoDisconnect
| OpInitializeGLContent
| OpSetViewPort (width height : Z)
| OpRender
| OpSetDepthAlphaValue (alpha : cfloat)
| OpSetGPUUpsample (on : bool)
| OpDestructor.

Definition void (m : M unit) : M (option bool) := m ;; ret None.
Definition boolean (m : M bool) : M (option bool) := b <- m ;; ret (Some b).

(** Run one operation; the value of a run that returned is what a [bool]
    method returned, [None] for a [void] one. *)
Definition run_op (o : Op) : M (option bool) :=
  match o with
  | OpOnXYZijAvailable xyz_ij => void (OnXYZijAvailableRouter xyz_ij)
  | OpCheckTangoVersion env activity v =>
      boolean (CheckTangoVersion env activity v)
  | OpOnTangoServiceConnected env binder =>
      void (OnTangoServiceConnected env binder)
  | OpTangoSetupConfig => boolean TangoSetupConfig
  | OpTangoConnectTexture => boolean TangoConnectTexture
  | OpTangoConnectCallbacks => boolean TangoConnectCallbacks
  | OpTangoConnect => boolean TangoConnect
  | OpTangoSetIntrinsicsAndExtrinsics =>
      boolean TangoSetIntrinsicsAndExtrinsics
  | OpTangoDisconnect => void TangoDisconnect
  | OpInitializeGLContent => void InitializeGLContent
  | OpSetViewPort w h => void (SetViewPort w h)
  | OpRender => void Render
  | OpSetDepthAlphaValue alpha => void (SetDepthAlphaValue alpha)
  | OpSetGPUUpsample on => void (SetGPUUpsample on)
  | OpDestructor => void SynchronizationApplication_dtor
  end.

(** Run a sequence of operations on the object, one after the other, as
    far as the runs return. *)
Fixpoint run_ops (os : list Op) : M unit :=
  match os with
  | [] => ret tt
  | o :: os' => run_op o ;; run_ops os'
  end.

(** ** Reading a record of calls *)

Fixpoint pick {A} (f : Event -> option A) (tr : list Event) : list A :=
  match tr with
  | [] => []
  | e :: tr' =>
      match f e with
      | Some x => x :: pick f tr'
      | None => pick f tr'
      end
  end.

(** pose queries: time stamp, frame pair, the pose returned *)
Definition pose_queries :=
  pick (fun e => match e with
                 | EvGetPoseAtTime t fp _ p => Some (t, fp, p)
                 | _ => None
                 end).

(** point-cloud fetches: the buffer returned and the new-data flag *)
Definition cloud_fetches :=
  pick (fun e => match e with
                 | EvGetLatestPointCloud _ _ b n => Some (b, n)
                 | _ => None
                 end).

(** reads of a buffer's time stamp *)
Definition timestamp_reads :=
  pick (fun e => match e with
                 | EvReadTimestamp b t => Some (b, t)
                 | _ => None
                 end).

(** colour-texture updates: camera and the time stamp left in the
    out-parameter *)
Definition texture_updates :=
  pick (fun e => match e with
                 | EvUpdateTexture id _ t => Some (id, t)
                 | _ => None
                 end).

(** the alpha values handed to the scene *)
Definition alpha_values :=
  pick (fun e => match e with
                 | EvSetDepthAlphaValue a => Some a
                 | _ => None
                 end).

(** A rendering call: one of the two depth operations or the scene
    render. *)
Definition is_render_call (e : Event) : bool :=
  match e with
  | EvRenderDepthToTexture _ _ _ | EvUpdateAndUpsampleDepth _ _
  | EvSceneRender _ _ => true
  | _ => false
  end.

Definition render_calls (tr : list Event) : list Event :=
  filter is_render_call tr.

Definition is_log (e : Event) : bool :=
  match e with EvLOGE _ _ => true | _ => false end.

Definition logs (tr : list Event) : list Event := filter is_log tr.

(** A call into the Tango API. *)
Definition is_api_call (e : Event) : bool :=
  match e with
  | EvUpdatePointCloud _ _ _ | EvConfigFree _ | EvFreePointCloudManager _ _
  | EvGetTangoVersion _ _ _ _ | EvSetBinder _ _ _ | EvGetConfig _ _
  | EvSetBool _ _ _ _ | EvGetInt32 _ _ _ _
  | EvCreatePointCloudManager _ _ _ | EvConnectTextureId _ _ _
  | EvConnectOnXYZijAvailable _ | EvConnect _ _
  | EvGetCameraIntrinsics _ _ _ | EvDisconnect
  | EvGetLatestPointCloud _ _ _ _ | EvUpdateTexture _ _ _
  | EvGetPoseAtTime _ _ _ _ => true
  | _ => false
  end.

Definition api_calls (tr : list Event) : list Event := filter is_api_call tr.

(** The [TangoErrorType] an API call returned, for the calls that return
    one. *)
Definition api_status (e : Event) : option TangoErrorType :=
  match e with
  | EvUpdatePointCloud _ _ r | EvFreePointCloudManager _ r
  | EvGetTangoVersion _ _ r _ | EvSetBinder _ _ r | EvSetBool _ _ _ r
  | EvGetInt32 _ _ r _ | EvCreatePointCloudManager _ r _
  | EvConnectTextureId _ _ r | EvConnectOnXYZijAvailable r | EvConnect _ r
  | EvGetCameraIntrinsics _ r _ | EvGetLatestPointCloud _ r _ _
  | EvUpdateTexture _ r _ | EvGetPoseAtTime _ _ r _ => Some r
  | _ => None
  end.

(** An API call that reported a status other than [TANGO_SUCCESS]. *)
Definition status_failed (e : Event) : bool :=
  match api_status e with
  | Some r => r != TANGO_SUCCESS
  | None => false
  end.

(** A failed setup step: a status other than [TANGO_SUCCESS], or a null
    configuration from [TangoService_getConfig]. *)
Definition setup_failed (e : Event) : bool :=
  match e with
  | EvGetConfig _ c => is_null c
  | _ => status_failed e
  end.

(** The calls after which the code logs a message when the status is not
    [TANGO_SUCCESS]. *)
Definition logs_on_failure (e : Event) : bool :=
  match e with
  | EvSetBinder _ _ _ | EvSetBool _ _ _ _ | EvGetInt32 _ _ _ _
  | EvConnect _ _ | EvGetCameraIntrinsics _ _ _ | EvUpdateTexture _ _ _
  | EvGetPoseAtTime _ _ _ _ => true
  | _ => false
  end.

(** The calls whose status other than [TANGO_SUCCESS] makes the calling
    method return [false]. *)
Definition returns_false_on_failure (e : Event) : bool :=
  match e with
  | EvGetTangoVersion _ _ _ _ | EvSetBool _ _ _ _ | EvGetInt32 _ _ _ _
  | EvCreatePointCloudManager _ _ _ | EvConnectTextureId _ _ _
  | EvConnectOnXYZijAvailable _ | EvConnect _ _
  | EvGetCameraIntrinsics _ _ _ => true
  | _ => false
  end.

Definition pose_valid (p : TangoPoseData) : bool :=
  Z.eqb (status_code p) TANGO_POSE_VALID.

(** the matrices handed to either depth operation *)
Definition depth_matrices :=
  pick (fun e => match e with
                 | EvRenderDepthToTexture m _ _ => Some m
                 | EvUpdateAndUpsampleDepth m _ => Some m
                 | _ => None
                 end).

Definition depth_frame_pair : TangoCoordinateFramePair :=
  {| base := TANGO_COORDINATE_FRAME_START_OF_SERVICE;
     target := TANGO_COORDINATE_FRAME_CAMERA_DEPTH |}.

Definition color_frame_pair : TangoCoordinateFramePair :=
  {| base := TANGO_COORDINATE_FRAME_CAMERA_COLOR;
     target := TANGO_COORDINATE_FRAME_START_OF_SERVICE |}.

(** ** The setup, step by step

    The steps a setup is to take on an object that has no configuration
    yet, in order: the default configuration, the three flags set to true
    on it, and, while there is no point-cloud manager, the query of
    max_point_cloud_elements and the creation of a manager of that size.
    Each step is listed with the answer the platform gives in the world
    the steps before it leave behind. *)
Definition setup_steps (a : App) (w : World) : list Event :=
  let w0 := snd (api_Scene_SetDepthAlphaValue float_0_0 (main_scene_ a) w) in
  let '(config, w1) := api_TangoService_getConfig TANGO_CONFIG_DEFAULT w0 in
  let '(e1, w2) :=
    api_TangoConfig_setBool config "config_enable_depth" true w1 in
  let '(e2, w3) :=
    api_TangoConfig_setBool config "config_enable_color_camera" true w2 in
  let '(e3, w4) :=
    api_TangoConfig_setBool config
      "config_enable_low_latency_imu_integration" true w3 in
  [ EvGetConfig TANGO_CONFIG_DEFAULT config;
    EvSetBool config "config_enable_depth" true e1;
    EvSetBool config "config_enable_color_camera" true e2;
    EvSetBool config "config_enable_low_latency_imu_integration" true e3 ]
  ++
  (if is_null (point_cloud_manager_ a) then
     let '((e4, max_points), w5) :=
       api_TangoConfig_getInt32 config "max_point_cloud_elements" w4 in
     let '((e5, manager), _) :=
       api_TangoSupport_createPointCloudManager max_points
         (point_cloud_manager_ a) w5 in
     [ EvGetInt32 config "max_point_cloud_elements" e4 max_points;
       EvCreatePointCloudManager max_points e5 manager ]
   else []).

(** The one step of a connect, with the platform's answer. *)
Definition connect_steps (a : App) (w : World) : list Event :=
  [ EvConnect (tango_config_ a)
      (fst (api_TangoService_connect (tango_config_ a) w)) ].

(** A list of steps up to and including the first that fails. *)
Fixpoint until_first_failure (steps : list Event) : list Event :=
  match steps with
  | [] => []
  | e :: rest =>
      e :: (if setup_failed e then [] else until_first_failure rest)
  end.

End Operations.

(** ** A scripted platform

    A small instance of [Platform] on which the methods run: time stamps
    are integers, matrices are 4x4 integer matrices under the usual
    product, and the service answers from a fixed script.  A call that
    fails leaves its out-parameters as they were, and every pointer but
    the null pointer refers to a readable point cloud. *)

Module Sim.

Definition Mat := list (list Z).

Definition dot (r c : list Z) : Z :=
  fold_right Z.add 0 (map (fun p => fst p * snd p) (combine r c)).

Definition col (j : nat) (m : Mat) : list Z := map (fun r => nth j r 0) m.

Definition mul (a b : Mat) : Mat :=
  map (fun r => map (fun j => dot r (col j b)) [0; 1; 2; 3]%nat) a.

Definition identity : Mat :=
  [[1; 0; 0; 0]; [0; 1; 0; 0]; [0; 0; 1; 0]; [0; 0; 0; 1]].

(** a translation by [(x, y, z)] *)
Definition translate (x y z : Z) : Mat :=
  [[1; 0; 0; x]; [0; 1; 0; y]; [0; 0; 1; z]; [0; 0; 0; 1]].

(** a quarter turn about the z axis *)
Definition turn_z : Mat :=
  [[0; -1; 0; 0]; [1; 0; 0; 0]; [0; 0; 1; 0]; [0; 0; 0; 1]].

Record Pose := { pose_status : Z; pose_matrix : Mat }.

(** The script: the status each API function answers with, by the
    function's name ([TangoConfig_setBool]: by the key), and the data it
    hands out. *)
Record Script := {
  ret_of : string -> Z;
  version : Z;
  config : ptr;
  max_points : Z;
  manager : ptr;
  latest : ptr;
  new_data : bool;
  cloud_timestamp : Z;
  color_timestamp : Z;
  depth_pose : Pose;
  color_pose : Pose
}.

(** the same service once its latest point cloud has been fetched: the
    new-data flag is down *)
Definition without_new_data (s : Script) : Script := {|
  ret_of := ret_of s;
  version := version s; config := config s; max_points := max_points s;
  manager := manager s; latest := latest s; new_data := false;
  cloud_timestamp := cloud_timestamp s; color_timestamp := color_timestamp s;
  depth_pose := depth_pose s; color_pose := color_pose s
|}.

#[export] Instance platform : Platform := {|
  World := Script;
  Timestamp := Z;
  timestamp_0_0 := 0;
  cfloat := Z;
  float_0_0 := 0;
  float_of_int := fun z => z;
  mat4 := Mat;
  mat4_mul := mul;
  TangoPoseData := Pose;
  status_code := pose_status;
  GetMatrixFromPose := pose_matrix;
  TangoCameraIntrinsics := unit;
  TANGO_SUCCESS := 0;
  TANGO_POSE_VALID := 1;
  TANGO_COORDINATE_FRAME_START_OF_SERVICE := 2;
  TANGO_COORDINATE_FRAME_CAMERA_DEPTH := 8;
  TANGO_COORDINATE_FRAME_CAMERA_COLOR := 7;
  TANGO_CAMERA_COLOR := 0;
  TANGO_CONFIG_DEFAULT := 0;
  opengl_world_T_tango_world :=
    [[1; 0; 0; 0]; [0; 0; 1; 0]; [0; -1; 0; 0]; [0; 0; 0; 1]];
  api_TangoSupport_updatePointCloud :=
    fun _ _ w => (ret_of w "TangoSupport_updatePointCloud", w);
  api_TangoConfig_free := fun _ w => w;
  api_TangoSupport_freePointCloudManager :=
    fun _ w => (ret_of w "TangoSupport_freePointCloudManager", w);
  api_TangoSupport_GetTangoVersion :=
    fun _ _ w => ((ret_of w "TangoSupport_GetTangoVersion", version w), w);
  api_TangoService_setBinder :=
    fun _ _ w => (ret_of w "TangoService_setBinder", w);
  api_TangoService_getConfig := fun _ w => (config w, w);
  api_TangoConfig_setBool := fun _ key _ w => (ret_of w key, w);
  api_TangoConfig_getInt32 := fun _ key w => ((ret_of w key, max_points w), w);
  api_TangoSupport_createPointCloudManager :=
    fun _ old w =>
      let r := ret_of w "TangoSupport_createPointCloudManager" in
      ((r, if Z.eqb r 0 then manager w else old), w);
  api_TangoService_connectTextureId :=
    fun _ _ w => (ret_of w "TangoService_connectTextureId", w);
  api_TangoService_connectOnXYZijAvailable :=
    fun w => (ret_of w "TangoService_connectOnXYZijAvailable", w);
  api_TangoService_connect := fun _ w => (ret_of w "TangoService_connect", w);
  api_TangoService_getCameraIntrinsics :=
    fun _ w => ((ret_of w "TangoService_getCameraIntrinsics", tt), w);
  api_TangoService_disconnect := fun w => w;
  api_TangoSupport_getLatestPointCloudAndNewDataFlag :=
    fun _ old flag w =>
      let r := ret_of w "TangoSupport_getLatestPointCloudAndNewDataFlag" in
      ((r, if Z.eqb r 0 then latest w else old,
           if Z.eqb r 0 then new_data w else flag), without_new_data w);
  api_TangoService_updateTexture :=
    fun _ old w =>
      let r := ret_of w "TangoService_updateTexture" in
      ((r, if Z.eqb r 0 then color_timestamp w else old), w);
  api_TangoService_getPoseAtTime :=
    fun _ fp w =>
      ((ret_of w "TangoService_getPoseAtTime",
        if Z.eqb (target fp) 8 then depth_pose w else color_pose w), w);
  XYZij_timestamp :=
    fun p w => if is_null p then None else Some (cloud_timestamp w);
  XYZij_timestamp_null := fun _ => eq_refl;
  ColorImage := GLuint;
  DepthImage := GLuint;
  Scene := Z;
  ColorImage_new := 1%N;
  DepthImage_new := 2%N;
  Scene_new := 100;
  ColorImage_GetTextureId := fun c => c;
  DepthImage_GetTextureId := fun d => d;
  api_ColorImage_InitializeGL := fun c w => (c, w);
  api_DepthImage_InitializeGL := fun d w => (d, w);
  api_Scene_InitializeGL := fun s w => (s, w);
  api_DepthImage_SetCameraIntrinsics := fun _ d w => (d, w);
  api_Scene_SetCameraIntrinsics := fun _ s w => (s, w);
  api_Scene_SetupViewPort := fun _ _ s w => (s, w);
  api_DepthImage_RenderDepthToTexture := fun _ _ _ d w => (d, w);
  api_DepthImage_UpdateAndUpsampleDepth := fun _ _ d w => (d, w);
  api_Scene_Render := fun _ _ s w => (s, w);
  api_Scene_SetDepthAlphaValue := fun alpha _ w => (alpha, w)
|}.

(** A service on which everything succeeds; the scene keeps the last
    alpha value it was given. *)
Definition healthy : Script := {|
  ret_of := fun _ => 0;
  version := 9377;
  config := 64%N;
  max_points := 60000;
  manager := 128%N;
  latest := 256%N;
  new_data := true;
  cloud_timestamp := 1000;
  color_timestamp := 1033;
  depth_pose := {| pose_status := 1; pose_matrix := translate 1 2 3 |};
  color_pose := {| pose_status := 1; pose_matrix := turn_z |}
|}.

(** the same service, except that the function [name] answers [code] *)
Definition failing (name : string) (code : Z) (s : Script) : Script := {|
  ret_of := fun n => if String.eqb n name then code else ret_of s n;
  version := version s; config := config s; max_points := max_points s;
  manager := manager s; latest := latest s; new_data := new_data s;
  cloud_timestamp := cloud_timestamp s; color_timestamp := color_timestamp s;
  depth_pose := depth_pose s; color_pose := color_pose s
|}.

(** the same service, except for the status of the two poses *)
Definition with_pose_status (depth color : Z) (s : Script) : Script := {|
  ret_of := ret_of s;
  version := version s; config := config s; max_points := max_points s;
  manager := manager s; latest := latest s; new_data := new_data s;
  cloud_timestamp := cloud_timestamp s; color_timestamp := color_timestamp s;
  depth_pose := {| pose_status := depth;
                   pose_matrix := pose_matrix (depth_pose s) |};
  color_pose := {| pose_status := color;
                   pose_matrix := pose_matrix (color_pose s) |}
|}.

(** the same service, except that no configuration can be had *)
Definition without_config (s : Script) : Script := {|
  ret_of := ret_of s;
  version := version s; config := nullptr; max_points := max_points s;
  manager := manager s; latest := latest s; new_data := new_data s;
  cloud_timestamp := cloud_timestamp s; color_timestamp := color_timestamp s;
  depth_pose := depth_pose s; color_pose := color_pose s
|}.

(** the storage of an object before its constructor runs *)
Definition raw : App := {|
  color_image_ := 0%N; depth_image_ := 0%N; main_scene_ := 0;
  tango_config_ := nullptr; OW_T_SS_ := identity; gpu_upsample_ := true;
  point_cloud_manager_ := nullptr; render_buffer_ := nullptr;
  screen_width_ := 0; screen_height_ := 0
|}.

Definition fresh : App := SynchronizationApplication raw.

End Sim.

(** * Properties *)

(** ** Proof steps shared by the lemmas below *)

Ltac unfold_calls :=
  unfold TangoSupport_updatePointCloud, TangoConfig_free,
    TangoSupport_freePointCloudManager, TangoSupport_GetTangoVersion,
    TangoService_setBinder, TangoService_getConfig, TangoConfig_setBool,
    TangoConfig_getInt32, TangoSupport_createPointCloudManager,
    TangoService_connectTextureId, TangoService_connectOnXYZijAvailable,
    TangoService_connect, TangoService_getCameraIntrinsics,
    TangoService_disconnect, TangoSupport_getLatestPointCloudAndNewDataFlag,
    TangoService_updateTexture, TangoService_getPoseAtTime, read_timestamp,
    color_image_InitializeGL, depth_image_InitializeGL,
    main_scene_InitializeGL, depth_image_SetCameraIntrinsics,
    main_scene_SetCameraIntrinsics, main_scene_SetupViewPort,
    depth_image_RenderDepthToTexture, depth_image_UpdateAndUpsampleDepth,
    main_scene_Render, main_scene_SetDepthAlphaValue in *.

Ltac unfold_monad :=
  unfold void, boolean, when, bind, ret, field, assign, sdk, sdk_void,
    deref, method, LOGE in *.

Ltac unfold_methods :=
  unfold run_op, OnXYZijAvailableRouter, OnXYZijAvailable,
    CheckTangoVersion, OnTangoServiceConnected, TangoSetupConfig,
    TangoConnectTexture, TangoConnectCallbacks, TangoConnect,
    TangoSetIntrinsicsAndExtrinsics, TangoDisconnect, InitializeGLContent,
    SetViewPort, Render, SetDepthAlphaValue, SetGPUUpsample,
    SynchronizationApplication_dtor.

(** Case analysis on the next answer of the platform or the next test. *)
Ltac answer :=
  match goal with
  | |- context [let '(_, _) := ?x in _] => destruct x eqn:?
  | |- context [match ?x with (_, _) => _ end] => destruct x eqn:?
  | |- context [match ?x with Some _ => _ | None => _ end] => destruct x eqn:?
  | |- context [if ?b then _ else _] => destruct b eqn:?
  end; cbn in *.

Ltac run := unfold_calls; unfold_monad; cbn; repeat answer.

(** From [H : e1 :: ... :: en :: [] = pre ++ e :: post], one case for each
    place [e] can have in the list. *)
Ltac places H :=
  match type of H with
  | _ = ?pre ++ _ :: _ =>
      destruct pre as [|? pre]; cbn in H;
      [ first [ discriminate H
              | injection H as <- <- ]
      | first [ discriminate H
              | injection H as <- H; places H ] ]
  end.

(** Run [Render] in a world where the answer of the point-cloud fetch
    [Hw] and what the read of the buffer's time stamp gives [Ht] are
    known. *)
Ltac run_frame Hw Ht :=
  unfold Render; unfold_calls; unfold_monad; cbn;
  rewrite Hw; cbn; rewrite Ht; cbn; repeat answer.

Section Properties.

Context {P : Platform}.

(** ** The monad's equations *)

Lemma bind_run {A B} (m : M A) (k : A -> M B) (a : App) (w : World) :
  bind m k a w =
    match value (m a w) with
    | Some x =>
        let r2 := k x (app' (m a w)) (world' (m a w)) in
        {| value := value r2; app' := app' r2; world' := world' r2;
           events := events (m a w) ++ events r2 |}
    | None =>
        {| value := None; app' := app' (m a w); world' := world' (m a w);
           events := events (m a w) |}
    end.
Proof.
  unfold bind. destruct (m a w) as [[x|] a1 w1 tr1]; cbn; [|reflexivity].
  destruct (k x a1 w1); reflexivity.
Qed.

Lemma bind_assign {B} (upd : App -> App) (k : M B) (a : App) (w : World) :
  (assign upd ;; k) a w = k (upd a) w.
Proof.
  rewrite bind_run. cbn. destruct (k (upd a) w); reflexivity.
Qed.

(** C1. In a frame whose point-cloud fetch leaves a readable buffer,
    [Render] fetches one point cloud, reads that buffer's time stamp
    [t0], updates the colour texture once, which leaves the time stamp
    [t1], and asks for exactly two poses: first at [t0] for
    (START_OF_SERVICE base, CAMERA_DEPTH target), then at [t1] for
    (CAMERA_COLOR base, START_OF_SERVICE target).  A matrix reaches a
    depth operation only when both poses have status TANGO_POSE_VALID,
    and it is then the product of the colour pose's matrix by the depth
    pose's matrix, in that order. *)
Theorem Render_chains_the_two_poses
    (a : App) (w w1 : World) (e : TangoErrorType) (buffer : ptr) (n : bool)
    (t0 : Timestamp) :
  api_TangoSupport_getLatestPointCloudAndNewDataFlag
    (point_cloud_manager_ a) (render_buffer_ a) false w
    = ((e, buffer, n), w1) ->
  XYZij_timestamp buffer w1 = Some t0 ->
  exists t1 pose_depth pose_color,
    cloud_fetches (events (Render a w)) = [(buffer, n)] /\
    timestamp_reads (events (Render a w)) = [(buffer, t0)] /\
    texture_updates (events (Render a w)) = [(TANGO_CAMERA_COLOR, t1)] /\
    pose_queries (events (Render a w)) =
      [(t0, depth_frame_pair, pose_depth);
       (t1, color_frame_pair, pose_color)] /\
    depth_matrices (events (Render a w)) =
      if pose_valid pose_color && pose_valid pose_depth
      then [mat4_mul (GetMatrixFromPose pose_color)
                     (GetMatrixFromPose pose_depth)]
      else [].
Proof.
  intros Hw Ht. unfold pose_valid.
  run_frame Hw Ht;
    repeat eexists;
    repeat match goal with H : _ = _ |- _ => rewrite H end;
    reflexivity.
Qed.

(** What [Render] hands to the renderer in a frame whose buffer is
    readable: nothing unless both poses are valid; otherwise the depth
    operation the flag selects, then the scene render on the two texture
    ids. *)
Lemma Render_render_calls
    (a : App) (w w1 : World) (e : TangoErrorType) (buffer : ptr) (n : bool)
    (t0 : Timestamp) :
  api_TangoSupport_getLatestPointCloudAndNewDataFlag
    (point_cloud_manager_ a) (render_buffer_ a) false w
    = ((e, buffer, n), w1) ->
  XYZij_timestamp buffer w1 = Some t0 ->
  exists pose_depth pose_color,
    cloud_fetches (events (Render a w)) = [(buffer, n)] /\
    map snd (pose_queries (events (Render a w))) = [pose_depth; pose_color] /\
    render_calls (events (Render a w)) =
      if pose_valid pose_color && pose_valid pose_depth then
        let m := mat4_mul (GetMatrixFromPose pose_color)
                          (GetMatrixFromPose pose_depth) in
        [ if gpu_upsample_ a
          then EvRenderDepthToTexture m buffer n
          else EvUpdateAndUpsampleDepth m buffer;
          EvSceneRender
            (ColorImage_GetTextureId (color_image_ a))
            (DepthImage_GetTextureId (depth_image_ (app' (Render a w)))) ]
      else [].
Proof.
  intros Hw Ht. unfold pose_valid.
  run_frame Hw Ht;
    repeat eexists;
    repeat match goal with H : _ = _ |- _ => rewrite H end;
    reflexivity.
Qed.


(** C5. After [SetGPUUpsample on], a frame whose buffer is readable and
    in which both poses are valid makes exactly two rendering calls: one
    depth operation, [RenderDepthToTexture] when [on] is true and
    [UpdateAndUpsampleDepth] when it is false, and then the scene
    render. *)
Theorem Render_selects_the_depth_path
    (on : bool) (a : App) (w w1 : World) (e : TangoErrorType) (buffer : ptr)
    (n : bool) (t0 : Timestamp) :
  api_TangoSupport_getLatestPointCloudAndNewDataFlag
    (point_cloud_manager_ a) (render_buffer_ a) false w
    = ((e, buffer, n), w1) ->
  XYZij_timestamp buffer w1 = Some t0 ->
  let r := (SetGPUUpsample on ;; Render) a w in
  exists pose_depth pose_color,
    cloud_fetches (events r) = [(buffer, n)] /\
    map snd (pose_queries (events r)) = [pose_depth; pose_color] /\
    (pose_valid pose_color && pose_valid pose_depth = true ->
     let m := mat4_mul (GetMatrixFromPose pose_color)
                       (GetMatrixFromPose pose_depth) in
     render_calls (events r) =
       [ if on
         then EvRenderDepthToTexture m buffer n
         else EvUpdateAndUpsampleDepth m buffer;
         EvSceneRender (ColorImage_GetTextureId (color_image_ a))
                       (DepthImage_GetTextureId (depth_image_ (app' r))) ]).
Proof.
  intros Hw Ht r.
  destruct (Render_render_calls (set_gpu_upsample_ on a) w Hw Ht)
    as (pd & pc & Hf & Hq & Hr).
  exists pd, pc.
  subst r. unfold SetGPUUpsample. rewrite bind_assign.
  split; [exact Hf|]. split; [exact Hq|].
  intros Hv. rewrite Hr, Hv. reflexivity.
Qed.

(** C6. The depth callback makes one outside call,
    [TangoSupport_updatePointCloud] on the application's point-cloud
    manager with the cloud it was given, and leaves every field of the
    application as it was; the world changes as that call changes it. *)
Theorem OnXYZijAvailable_only_updates_the_point_cloud
    (xyz_ij : ptr) (a : App) (w : World) :
  let r := OnXYZijAvailable xyz_ij a w in
  let call := api_TangoSupport_updatePointCloud
                (point_cloud_manager_ a) xyz_ij w in
  app' r = a /\
  world' r = snd call /\
  events r = [EvUpdatePointCloud (point_cloud_manager_ a) xyz_ij (fst call)].
Proof.
  unfold OnXYZijAvailable.
  run. repeat split.
Qed.

(** No operation assigns [OW_T_SS_]. *)
Lemma run_op_keeps_OW_T_SS (o : Op) (a : App) (w : World) :
  OW_T_SS_ (app' (run_op o a w)) = OW_T_SS_ a.
Proof.
  destruct o; unfold_methods; run; reflexivity.
Qed.

(** A sequence of operations leaves [OW_T_SS_] as it found it. *)
Lemma run_ops_keeps_OW_T_SS (os : list Op) :
  forall (a : App) (w : World),
    OW_T_SS_ (app' (run_ops os a w)) = OW_T_SS_ a.
Proof.
  induction os as [|o os IH]; intros a w; [reflexivity|].
  cbn [run_ops]. rewrite bind_run.
  destruct (value (run_op o a w)); cbn.
  - rewrite IH. apply run_op_keeps_OW_T_SS.
  - apply run_op_keeps_OW_T_SS.
Qed.

(** C7. The constructor sets [OW_T_SS_] to
    [opengl_world_T_tango_world()], and after any sequence of operations
    on the constructed object, in any world, the field still has that
    value. *)
Theorem OW_T_SS_is_fixed (storage : App) (os : list Op) (w : World) :
  OW_T_SS_ (SynchronizationApplication storage) = opengl_world_T_tango_world /\
  OW_T_SS_ (app' (run_ops os (SynchronizationApplication storage) w)) =
    opengl_world_T_tango_world.
Proof.
  split; [reflexivity|].
  rewrite run_ops_keeps_OW_T_SS. reflexivity.
Qed.

(** C9. [CheckTangoVersion] asks the service for its version once and
    returns true exactly when that call returned TANGO_SUCCESS and the
    version it reported is at least [min_tango_version]. *)
Theorem CheckTangoVersion_true_iff
    (env activity : ptr) (min_tango_version : Z) (a : App) (w : World) :
  let r := CheckTangoVersion env activity min_tango_version a w in
  exists err version,
    events r = [EvGetTangoVersion env activity err version] /\
    (value r = Some true <->
     err = TANGO_SUCCESS /\ version >= min_tango_version).
Proof.
  unfold CheckTangoVersion. unfold_calls. unfold_monad. cbn.
  destruct (api_TangoSupport_GetTangoVersion env activity w)
    as [[err version] w1].
  cbn. exists err, version. split; [reflexivity|].
  split.
  - intros H. injection H as H. apply andb_true_iff in H.
    destruct H as [He Hv]. apply Z.eqb_eq in He. apply Z.geb_le in Hv.
    split; [exact He | lia].
  - intros [He Hv]. f_equal. apply andb_true_iff.
    split; [apply Z.eqb_eq; exact He | apply Z.geb_le; lia].
Qed.

Lemma pick_app {A} (f : Event -> option A) (l1 l2 : list Event) :
  pick f (l1 ++ l2) = pick f l1 ++ pick f l2.
Proof.
  induction l1 as [|e l1 IH]; [reflexivity|].
  cbn. destruct (f e); cbn; rewrite IH; reflexivity.
Qed.

(** The head of [TangoSetupConfig]: the scene is given alpha 0.0 first
    and never again, the flag ends up false, and with a configuration
    already there nothing else happens. *)
Lemma TangoSetupConfig_head (a : App) (w : World) :
  let r := TangoSetupConfig a w in
  gpu_upsample_ (app' r) = false /\
  main_scene_ (app' r) =
    fst (api_Scene_SetDepthAlphaValue float_0_0 (main_scene_ a) w) /\
  (exists rest,
     events r = EvSetDepthAlphaValue float_0_0 :: rest /\
     alpha_values rest = []) /\
  (is_null (tango_config_ a) = false ->
   value r = Some true /\
   events r = [EvSetDepthAlphaValue float_0_0] /\
   tango_config_ (app' r) = tango_config_ a /\
   point_cloud_manager_ (app' r) = point_cloud_manager_ a).
Proof.
  unfold TangoSetupConfig, SetDepthAlphaValue, SetGPUUpsample.
  run;
    (split; [reflexivity|]);
    (split; [reflexivity|]);
    (split; [eexists; split; reflexivity|]);
    intros Hn; rewrite Hn in *; try discriminate;
    repeat split.
Qed.

(** C8. After any earlier operations that ran to their end, a call of
    [TangoSetupConfig] starts by handing alpha 0.0 to the scene, which is
    the last alpha the scene is given, and leaves the GPU-upsample flag
    false.  When the
    configuration handle is not null at the call, the call does nothing
    more: it returns true, and the handle and the point-cloud manager are
    as they were. *)
Theorem TangoSetupConfig_resets_alpha_and_flag
    (earlier : list Op) (a : App) (w : World) :
  value (run_ops earlier a w) = Some tt ->
  let before := run_ops earlier a w in
  let r := (run_ops earlier ;; TangoSetupConfig) a w in
  gpu_upsample_ (app' r) = false /\
  (exists rest,
     events r = events before ++ EvSetDepthAlphaValue float_0_0 :: rest) /\
  alpha_values (events r) = alpha_values (events before) ++ [float_0_0] /\
  (is_null (tango_config_ (app' before)) = false ->
   value r = Some true /\
   events r = events before ++ [EvSetDepthAlphaValue float_0_0] /\
   tango_config_ (app' r) = tango_config_ (app' before) /\
   point_cloud_manager_ (app' r) = point_cloud_manager_ (app' before)).
Proof.
  intros Hran before r.
  destruct (TangoSetupConfig_head (app' before) (world' before))
    as (Hg & _ & (rest & Hev & Hal) & Hnn).
  subst r. rewrite bind_run, Hran. cbn. fold before.
  split; [|split; [|split]].
  - exact Hg.
  - exists rest. rewrite Hev. reflexivity.
  - unfold alpha_values in *. rewrite pick_app, Hev. cbn. rewrite Hal.
    reflexivity.
  - intros Hn. destruct (Hnn Hn) as (Hv & He & Hc & Hm).
    rewrite He. repeat split; assumption.
Qed.


(** C4. On an object without a configuration, [TangoSetupConfig] takes
    the setup steps in order (default configuration, the three flags,
    max_point_cloud_elements, the point-cloud manager) up to and
    including the first that fails, and returns false exactly when one
    fails; [TangoConnect] makes the one call [TangoService_connect] on
    the handle and returns false exactly when it fails.  In both, a
    failed step (a null configuration, or a status other than
    TANGO_SUCCESS) is followed by log messages only. *)
Theorem setup_failure_aborts (a : App) (w : World) :
  (is_null (tango_config_ a) = true ->
   api_calls (events (TangoSetupConfig a w)) =
     until_first_failure (setup_steps a w) /\
   value (TangoSetupConfig a w) =
     Some (negb (existsb setup_failed (setup_steps a w)))) /\
  (api_calls (events (TangoConnect a w)) = connect_steps a w /\
   value (TangoConnect a w) =
     Some (negb (existsb setup_failed (connect_steps a w)))) /\
  (forall o pre e post,
     o = OpTangoSetupConfig \/ o = OpTangoConnect ->
     events (run_op o a w) = pre ++ e :: post ->
     setup_failed e = true ->
     value (run_op o a w) = Some (Some false) /\
     Forall (fun e' => is_log e' = true) post).
Proof.
  split; [|split].
  - intros Hc.
    unfold TangoSetupConfig, setup_steps, SetDepthAlphaValue, SetGPUUpsample.
    unfold_calls. unfold_monad. cbn.
    destruct (api_Scene_SetDepthAlphaValue float_0_0 (main_scene_ a) w)
      as [s w0].
    cbn. rewrite Hc. cbn.
    repeat answer;
      unfold status_failed in *; cbn in *;
      repeat answer;
      repeat match goal with
             | H1 : ?x = _, H2 : ?x = _ |- _ => rewrite H1 in H2
             | H : (_, _) = (_, _) |- _ => injection H as ? ?; subst
             end;
      try congruence;
      repeat match goal with H : _ = _ |- _ => rewrite H end;
      split; reflexivity.
  - unfold TangoConnect, connect_steps.
    run; unfold status_failed; cbn;
      repeat match goal with H : _ = _ |- _ => rewrite H end;
      split; reflexivity.
  - intros o pre e post [-> | ->] Hev Hfail; revert Hev;
      unfold run_op, TangoSetupConfig, TangoConnect, SetDepthAlphaValue,
        SetGPUUpsample;
      run; intros Hev; places Hev;
      cbn in Hfail; unfold status_failed in Hfail; cbn in Hfail;
      try congruence;
      (split; [reflexivity | repeat constructor]).
Qed.

(** C3, as the code has it.  In every operation, a status other than
    TANGO_SUCCESS from [TangoService_setBinder], [TangoConfig_setBool],
    [TangoConfig_getInt32], [TangoService_connect],
    [TangoService_getCameraIntrinsics], [TangoService_updateTexture] or
    [TangoService_getPoseAtTime] is followed at once by a log message,
    and one from [TangoSupport_GetTangoVersion], [TangoConfig_setBool],
    [TangoConfig_getInt32], [TangoSupport_createPointCloudManager],
    [TangoService_connectTextureId],
    [TangoService_connectOnXYZijAvailable], [TangoService_connect] or
    [TangoService_getCameraIntrinsics] makes the method return false. *)
Theorem failed_status_is_logged_or_returned
    (o : Op) (a : App) (w : World) (pre post : list Event) (e : Event) :
  events (run_op o a w) = pre ++ e :: post ->
  status_failed e = true ->
  (logs_on_failure e = true ->
   exists format args rest, post = EvLOGE format args :: rest) /\
  (returns_false_on_failure e = true ->
   value (run_op o a w) = Some (Some false)).
Proof.
  intros Hev Hfail; revert Hev.
  destruct o; unfold_methods;
    run; intros Hev; places Hev;
    unfold status_failed in Hfail; cbn in Hfail;
    try congruence;
    (split; intros Hk; cbn in Hk; try discriminate Hk);
    try (do 3 eexists; reflexivity);
    try reflexivity.
  all: apply negb_true_iff in Hfail; rewrite Hfail; reflexivity.
Qed.

End Properties.

(** * Runs on the scripted platform *)

Module Scenarios.

Import Sim.

(** The product is taken colour pose first: with a translation as the
    depth pose and a quarter turn as the colour pose the two orders
    differ, and the frame hands the renderer [turn_z * translate]. *)
Example Render_healthy_frame :
  render_calls (events (Render fresh healthy)) =
    [ EvUpdateAndUpsampleDepth (mul turn_z (translate 1 2 3)) 256%N;
      EvSceneRender 1%N 2%N ] /\
  mul turn_z (translate 1 2 3) <> mul (translate 1 2 3) turn_z.
Proof. split; [reflexivity | discriminate]. Qed.

Example Render_invalid_depth_pose :
  events (Render fresh (with_pose_status 2 1 healthy)) =
    [ EvGetLatestPointCloud 0%N 0 256%N true;
      EvReadTimestamp 256%N 1000;
      EvUpdateTexture 0 0 1033;
      EvGetPoseAtTime 1000 {| base := 2; target := 8 |} 0
        {| pose_status := 2; pose_matrix := translate 1 2 3 |};
      EvGetPoseAtTime 1033 {| base := 7; target := 2 |} 0
        {| pose_status := 1; pose_matrix := turn_z |};
      EvLOGE "Invalid pose for ss_t_depth at time: %lf" [LogDouble 1000] ].
Proof. reflexivity. Qed.

Example TangoSetupConfig_healthy :
  value (TangoSetupConfig fresh healthy) = Some true /\
  events (TangoSetupConfig fresh healthy) =
    [ EvSetDepthAlphaValue 0;
      EvGetConfig 0 64%N;
      EvSetBool 64%N "config_enable_depth" true 0;
      EvSetBool 64%N "config_enable_color_camera" true 0;
      EvSetBool 64%N "config_enable_low_latency_imu_integration" true 0;
      EvGetInt32 64%N "max_point_cloud_elements" 0 60000;
      EvCreatePointCloudManager 60000 0 128%N ].
Proof. split; reflexivity. Qed.

Example TangoSetupConfig_without_config :
  value (TangoSetupConfig fresh (without_config healthy)) = Some false /\
  events (TangoSetupConfig fresh (without_config healthy)) =
    [ EvSetDepthAlphaValue 0; EvGetConfig 0 0%N ].
Proof. split; reflexivity. Qed.

Example CheckTangoVersion_at_the_bound :
  value (CheckTangoVersion 1%N 2%N 9377 fresh healthy) = Some true /\
  value (CheckTangoVersion 1%N 2%N 9378 fresh healthy) = Some false /\
  value (CheckTangoVersion 1%N 2%N 0 fresh
           (failing "TangoSupport_GetTangoVersion" (-1) healthy)) = Some false.
Proof. repeat split. Qed.

(** The first frame of an object whose fetch fails: the fetch leaves
    [render_buffer_] null, its status is dropped, and the frame dies on
    the read of the time stamp with nothing logged. *)
Example Render_dies_after_a_failed_first_fetch :
  let w := failing "TangoSupport_getLatestPointCloudAndNewDataFlag" (-1)
             healthy in
  value (Render fresh w) = None /\
  events (Render fresh w) = [ EvGetLatestPointCloud 0%N (-1) 0%N false ].
Proof. split; reflexivity. Qed.

Lemma Render_chains_the_two_poses_witness :
  (api_TangoSupport_getLatestPointCloudAndNewDataFlag
     (point_cloud_manager_ fresh) (render_buffer_ fresh) false healthy
     = ((0, 256%N, true), without_new_data healthy) /\
   XYZij_timestamp 256%N (without_new_data healthy) = Some 1000) /\
  exists t1 pose_depth pose_color,
    cloud_fetches (events (Render fresh healthy)) = [(256%N, true)] /\
    timestamp_reads (events (Render fresh healthy)) = [(256%N, 1000)] /\
    texture_updates (events (Render fresh healthy)) =
      [(TANGO_CAMERA_COLOR, t1)] /\
    pose_queries (events (Render fresh healthy)) =
      [(1000, depth_frame_pair, pose_depth);
       (t1, color_frame_pair, pose_color)] /\
    depth_matrices (events (Render fresh healthy)) =
      if pose_valid pose_color && pose_valid pose_depth
      then [mat4_mul (GetMatrixFromPose pose_color)
                     (GetMatrixFromPose pose_depth)]
      else [].
Proof.
  split; [split; reflexivity|].
  exact (@Render_chains_the_two_poses platform fresh healthy
           (without_new_data healthy) 0 256%N true 1000 eq_refl eq_refl).
Defined.



(** C3 as the spec states it fails: [TangoSupport_updatePointCloud]
    returns an error to the depth callback and no message is logged. *)
Lemma failed_updatePointCloud_is_not_logged :
  let w := failing "TangoSupport_updatePointCloud" (-1) healthy in
  let r := run_op (OpOnXYZijAvailable 512%N) fresh w in
  ~ (forall pre e post,
       events r = pre ++ e :: post ->
       status_failed e = true ->
       exists format args, In (EvLOGE format args) post).
Proof.
  intros w r H.
  destruct (H [] (@EvUpdatePointCloud platform 0%N 512%N (-1)) [])
    as (format & args & Hin); [reflexivity | reflexivity |].
  exact Hin.
Qed.

Lemma failed_status_is_logged_or_returned_witness :
  let w := failing "TangoService_connect" (-1) healthy in
  let e := @EvConnect platform 0%N (-1) in
  let post :=
    [ EvLOGE "SynchronizationApplication: Failed to connect to the Tango service."
             [] ] in
  (events (run_op OpTangoConnect fresh w) = [] ++ e :: post /\
   status_failed e = true) /\
  (exists format args rest, post = EvLOGE format args :: rest) /\
  value (run_op OpTangoConnect fresh w) = Some (Some false).
Proof.
  intros w e post.
  split; [split; reflexivity|].
  destruct (@failed_status_is_logged_or_returned platform
              OpTangoConnect fresh w [] post e) as [Hlog Hret];
    [reflexivity | reflexivity |].
  split; [apply Hlog | apply Hret]; reflexivity.
Defined.

Lemma setup_failure_aborts_witness :
  let ws := failing "config_enable_color_camera" (-1) healthy in
  let wc := failing "TangoService_connect" (-1) healthy in
  let failed := @EvSetBool platform 64%N "config_enable_color_camera" true
                  (-1) in
  let message :=
    EvLOGE "Failed to set 'enable_color_camera' configuration flag with error code: %d"
           [LogInt (-1)] in
  (is_null (tango_config_ fresh) = true /\ setup_failed failed = true) /\
  api_calls (events (TangoSetupConfig fresh ws)) =
    [ EvGetConfig 0 64%N;
      EvSetBool 64%N "config_enable_depth" true 0;
      failed ] /\
  value (TangoSetupConfig fresh ws) = Some false /\
  Forall (fun e' => is_log e' = true) [message] /\
  api_calls (events (TangoConnect fresh wc)) = [ EvConnect 0%N (-1) ] /\
  value (TangoConnect fresh wc) = Some false /\
  value (TangoConnect fresh healthy) = Some true.
Proof.
  intros ws wc failed message.
  split; [split; reflexivity|].
  destruct (@setup_failure_aborts platform fresh ws) as (Hsetup & _ & Hafter).
  destruct (Hsetup eq_refl) as (Hcalls & Hvalue).
  destruct (Hafter OpTangoSetupConfig
              [ @EvSetDepthAlphaValue platform 0; EvGetConfig 0 64%N;
                EvSetBool 64%N "config_enable_depth" true 0 ]
              failed [message] (or_introl eq_refl) eq_refl eq_refl)
    as (_ & Hlogs).
  destruct (@setup_failure_aborts platform fresh wc) as (_ & (Hc1 & Hc2) & _).
  destruct (@setup_failure_aborts platform fresh healthy)
    as (_ & (_ & Hc3) & _).
  split; [rewrite Hcalls; reflexivity|].
  split; [rewrite Hvalue; reflexivity|].
  split; [exact Hlogs|].
  split; [rewrite Hc1; reflexivity|].
  split; [rewrite Hc2 | rewrite Hc3]; reflexivity.
Defined.

Lemma Render_selects_the_depth_path_witness :
  (api_TangoSupport_getLatestPointCloudAndNewDataFlag
     (point_cloud_manager_ fresh) (render_buffer_ fresh) false healthy
     = ((0, 256%N, true), without_new_data healthy) /\
   XYZij_timestamp 256%N (without_new_data healthy) = Some 1000) /\
  render_calls (events ((SetGPUUpsample true ;; Render) fresh healthy)) =
    [ EvRenderDepthToTexture (mul turn_z (translate 1 2 3)) 256%N true;
      EvSceneRender 1%N 2%N ] /\
  render_calls (events ((SetGPUUpsample false ;; Render) fresh healthy)) =
    [ EvUpdateAndUpsampleDepth (mul turn_z (translate 1 2 3)) 256%N;
      EvSceneRender 1%N 2%N ].
Proof.
  split; [split; reflexivity|].
  split.
  - destruct (@Render_selects_the_depth_path platform true fresh healthy
                (without_new_data healthy) 0 256%N true 1000
                eq_refl eq_refl)
      as (pd & pc & Hf & Hq & Hr).
    injection Hq as <- <-.
    exact (Hr eq_refl).
  - destruct (@Render_selects_the_depth_path platform false fresh healthy
                (without_new_data healthy) 0 256%N true 1000
                eq_refl eq_refl)
      as (pd & pc & Hf & Hq & Hr).
    injection Hq as <- <-.
    exact (Hr eq_refl).
Defined.

Lemma TangoSetupConfig_resets_alpha_and_flag_witness :
  let earlier :=
    [ OpTangoSetupConfig; OpSetGPUUpsample true; OpSetDepthAlphaValue 5 ] in
  let before := run_ops earlier fresh healthy in
  let r := (run_ops earlier ;; TangoSetupConfig) fresh healthy in
  (value before = Some tt /\
   gpu_upsample_ (app' before) = true /\
   main_scene_ (app' before) = 5 /\
   is_null (tango_config_ (app' before)) = false) /\
  gpu_upsample_ (app' r) = false /\
  alpha_values (events r) = [0; 5; 0] /\
  value r = Some true /\
  api_calls (events r) = api_calls (events before) /\
  point_cloud_manager_ (app' r) = 128%N.
Proof.
  intros earlier before r.
  split; [repeat split|].
  destruct (@TangoSetupConfig_resets_alpha_and_flag platform
              earlier fresh healthy eq_refl) as (Hg & _ & Ha & Hn).
  destruct (Hn eq_refl) as (Hv & He & _ & Hm).
  split; [exact Hg|]. split; [exact Ha|]. split; [exact Hv|].
  split; [|exact Hm].
  change (events r) with
    (events ((run_ops earlier ;; TangoSetupConfig) fresh healthy)).
  rewrite He. reflexivity.
Defined.


End Scenarios.

(** * Further properties of the methods *)

Section Lifecycle.

Context {P : Platform}.

(** ** Setup *)

(** X1. [TangoSetupConfig] and [TangoConnect] return true exactly when no
    step of theirs failed: with C4, a false return always has a failed
    step behind it, and a true return has none. *)
Theorem setup_returns_true_iff_no_step_failed (a : App) (w : World) :
  value (TangoSetupConfig a w) =
    Some (negb (existsb setup_failed (events (TangoSetupConfig a w)))) /\
  value (TangoConnect a w) =
    Some (negb (existsb setup_failed (events (TangoConnect a w)))).
Proof.
  split; unfold TangoSetupConfig, TangoConnect, SetDepthAlphaValue,
    SetGPUUpsample; run; unfold status_failed; cbn;
    repeat match goal with H : _ = _ |- _ => rewrite H end;
    reflexivity.
Qed.

(** X2. [TangoSetupConfig] stores the handle it got from
    [TangoService_getConfig] before it sets any flag.  So once a call has
    obtained a configuration, the next call finds the handle set, returns
    true and makes no API call at all, also when the first call failed at
    a later step. *)
Theorem TangoSetupConfig_retry_after_failure
    (a : App) (w : World) (kind : TangoConfigType) (c : ptr) :
  In (EvGetConfig kind c) (events (TangoSetupConfig a w)) ->
  is_null c = false ->
  let r1 := TangoSetupConfig a w in
  let r2 := TangoSetupConfig (app' r1) (world' r1) in
  tango_config_ (app' r1) = c /\
  value r2 = Some true /\
  api_calls (events r2) = [].
Proof.
  intros Hin Hc r1 r2.
  assert (Hset : tango_config_ (app' r1) = c).
  { subst r1 r2. revert Hin.
    unfold TangoSetupConfig, SetDepthAlphaValue, SetGPUUpsample.
    run; intros Hin; cbn in Hin;
      repeat (destruct Hin as [Hin|Hin]; [try discriminate Hin|]);
      try contradiction; inversion Hin; reflexivity. }
  split; [exact Hset|].
  destruct (TangoSetupConfig_head (app' r1) (world' r1))
    as (_ & _ & _ & Hnn).
  rewrite Hset in Hnn. destruct (Hnn Hc) as (Hv & He & _).
  subst r2. rewrite Hv, He. split; reflexivity.
Qed.

(** One operation leaves a configuration handle that is set as it is. *)
Lemma run_op_keeps_tango_config (o : Op) (a : App) (w : World) :
  is_null (tango_config_ a) = false ->
  tango_config_ (app' (run_op o a w)) = tango_config_ a.
Proof.
  intros H.
  destruct o; unfold_methods; run;
    try reflexivity;
    rewrite H in *; discriminate.
Qed.

(** X3. Once the configuration handle is set, no sequence of operations
    changes it: a second [TangoSetupConfig] does not fetch a new
    configuration, and the destructor frees the configuration without
    clearing the handle. *)
Theorem tango_config_is_set_once (os : list Op) :
  forall (a : App) (w : World),
    is_null (tango_config_ a) = false ->
    tango_config_ (app' (run_ops os a w)) = tango_config_ a.
Proof.
  induction os as [|o os IH]; intros a w H; [reflexivity|].
  cbn [run_ops]. rewrite bind_run.
  pose proof (run_op_keeps_tango_config o a w H) as Ho.
  destruct (value (run_op o a w)); cbn; [|exact Ho].
  rewrite IH; [exact Ho|]. rewrite Ho. exact H.
Qed.

(** One operation other than the destructor leaves a point-cloud manager
    that is set as it is. *)
Lemma run_op_keeps_point_cloud_manager (o : Op) (a : App) (w : World) :
  o <> OpDestructor ->
  is_null (point_cloud_manager_ a) = false ->
  point_cloud_manager_ (app' (run_op o a w)) = point_cloud_manager_ a.
Proof.
  intros Ho H.
  destruct o; try (exfalso; apply Ho; reflexivity);
    unfold_methods; run;
    try reflexivity;
    rewrite H in *; discriminate.
Qed.

(** X4. Only the destructor lets go of a point-cloud manager: once the
    field is set, every sequence of other operations keeps it, and
    [TangoSetupConfig] creates a manager only while the field is null. *)
Theorem point_cloud_manager_is_created_once (os : list Op) :
  forall (a : App) (w : World),
    ~ In OpDestructor os ->
    is_null (point_cloud_manager_ a) = false ->
    point_cloud_manager_ (app' (run_ops os a w)) = point_cloud_manager_ a.
Proof.
  induction os as [|o os IH]; intros a w Hd H; [reflexivity|].
  cbn [run_ops]. rewrite bind_run.
  assert (Ho : point_cloud_manager_ (app' (run_op o a w)) =
               point_cloud_manager_ a).
  { apply run_op_keeps_point_cloud_manager; [|exact H].
    intros ->. apply Hd. left. reflexivity. }
  destruct (value (run_op o a w)); cbn; [|exact Ho].
  rewrite IH.
  - exact Ho.
  - intros Hin. apply Hd. right. exact Hin.
  - rewrite Ho. exact H.
Qed.

(** ** Frames *)

(** X5. [Render] drops the status of the point-cloud fetch and reads the
    time stamp through the buffer pointer the fetch leaves, without a
    test.  When that pointer does not refer to a readable point cloud,
    as when it is null, the frame dies there: the fetch is the only
    call made, [render_buffer_] holds the pointer, nothing is logged.
    When it does, the frame returns after exactly four API calls, in
    the same order whatever the later three return: the fetch, the
    colour-texture update, the depth pose query and the colour pose
    query. *)
Theorem Render_dies_or_makes_four_api_calls
    (a : App) (w w1 : World) (e : TangoErrorType) (buffer : ptr) (n : bool) :
  api_TangoSupport_getLatestPointCloudAndNewDataFlag
    (point_cloud_manager_ a) (render_buffer_ a) false w
    = ((e, buffer, n), w1) ->
  match XYZij_timestamp buffer w1 with
  | None =>
      Render a w =
        {| value := None;
           app' := set_render_buffer_ buffer a;
           world' := w1;
           events :=
             [EvGetLatestPointCloud (point_cloud_manager_ a) e buffer n] |}
  | Some t0 =>
      value (Render a w) = Some tt /\
      exists e1 t1 e2 pose_depth e3 pose_color,
        api_calls (events (Render a w)) =
          [ EvGetLatestPointCloud (point_cloud_manager_ a) e buffer n;
            EvUpdateTexture TANGO_CAMERA_COLOR e1 t1;
            EvGetPoseAtTime t0 depth_frame_pair e2 pose_depth;
            EvGetPoseAtTime t1 color_frame_pair e3 pose_color ]
  end /\
  (buffer = nullptr -> value (Render a w) = None).
Proof.
  intros Hw. split.
  - destruct (XYZij_timestamp buffer w1) as [t0|] eqn:Ht.
    + run_frame Hw Ht; (split; [reflexivity|]); do 6 eexists; reflexivity.
    + unfold Render. unfold_calls. unfold_monad. cbn.
      rewrite Hw. cbn. rewrite Ht. reflexivity.
  - intros ->.
    unfold Render. unfold_calls. unfold_monad. cbn.
    rewrite Hw. cbn. rewrite XYZij_timestamp_null. reflexivity.
Qed.

(** X6. What a frame may change in the application: the buffer pointer,
    which becomes the buffer the fetch returned, and, when it renders,
    the depth image and the scene.  The configuration handle, the
    point-cloud manager, the GPU flag, the colour image and the screen
    size are as before, and a frame without a rendering call leaves the
    depth image and the scene alone too. *)
Theorem Render_changes_only_the_render_state (a : App) (w : World) :
  let r := Render a w in
  (color_image_ (app' r) = color_image_ a /\
   tango_config_ (app' r) = tango_config_ a /\
   gpu_upsample_ (app' r) = gpu_upsample_ a /\
   point_cloud_manager_ (app' r) = point_cloud_manager_ a /\
   screen_width_ (app' r) = screen_width_ a /\
   screen_height_ (app' r) = screen_height_ a) /\
  (exists n, cloud_fetches (events r) = [(render_buffer_ (app' r), n)]) /\
  (render_calls (events r) = [] ->
   depth_image_ (app' r) = depth_image_ a /\
   main_scene_ (app' r) = main_scene_ a).
Proof.
  unfold Render.
  run;
    (split; [repeat split; congruence|]);
    (split; [eexists; reflexivity|]);
    intros Hr; try discriminate Hr; split; reflexivity.
Qed.

(** X7. A frame that reads its buffer and finds a pose invalid says which
    one, and the colour pose is looked at first: with an invalid colour
    pose the frame ends on the ss_t_color message with the colour time
    stamp, whatever the depth pose is; the ss_t_depth message with the
    depth time stamp ends the frame only when the colour pose is valid
    and the depth pose is not. *)
Theorem Render_reports_the_invalid_pose
    (a : App) (w w1 : World) (e : TangoErrorType) (buffer : ptr) (n : bool)
    (t0 : Timestamp) :
  api_TangoSupport_getLatestPointCloudAndNewDataFlag
    (point_cloud_manager_ a) (render_buffer_ a) false w
    = ((e, buffer, n), w1) ->
  XYZij_timestamp buffer w1 = Some t0 ->
  exists t1 pose_depth pose_color,
    pose_queries (events (Render a w)) =
      [(t0, depth_frame_pair, pose_depth);
       (t1, color_frame_pair, pose_color)] /\
    (pose_valid pose_color && pose_valid pose_depth = true \/
     hd_error (rev (events (Render a w))) =
       Some (if pose_valid pose_color
             then EvLOGE "Invalid pose for ss_t_depth at time: %lf"
                         [LogDouble t0]
             else EvLOGE "Invalid pose for ss_t_color at time: %lf"
                         [LogDouble t1])).
Proof.
  intros Hw Ht. unfold pose_valid.
  run_frame Hw Ht;
    do 3 eexists; (split; [reflexivity|]);
    repeat match goal with H : _ = _ |- _ => rewrite H end;
    cbn; first [left; reflexivity | right; reflexivity].
Qed.

(** With the flag down, a frame does not call [RenderDepthToTexture]. *)
Lemma Render_keeps_to_the_CPU_path
    (a : App) (w : World) (m : mat4) (b : ptr) (flag : bool) :
  gpu_upsample_ a = false ->
  ~ In (EvRenderDepthToTexture m b flag) (events (Render a w)).
Proof.
  intros Hg. unfold Render.
  run; intros Hin; cbn in Hin;
    repeat (destruct Hin as [Hin|Hin]; [try discriminate Hin|]);
    try exact Hin; congruence.
Qed.

(** [TangoSetupConfig] does not call [RenderDepthToTexture]. *)
Lemma TangoSetupConfig_does_not_draw
    (a : App) (w : World) (m : mat4) (b : ptr) (flag : bool) :
  ~ In (EvRenderDepthToTexture m b flag) (events (TangoSetupConfig a w)).
Proof.
  unfold TangoSetupConfig, SetDepthAlphaValue, SetGPUUpsample.
  run; intros Hin; cbn in Hin;
    repeat (destruct Hin as [Hin|Hin]; [discriminate Hin|]);
    exact Hin.
Qed.

(** X8. The frame that follows [TangoSetupConfig] never takes the GPU
    path: the setup call puts the flag down, so whatever the flag was
    before, neither the setup nor the frame calls
    [RenderDepthToTexture]. *)
Theorem no_GPU_path_right_after_setup
    (a : App) (w : World) (m : mat4) (b : ptr) (flag : bool) :
  ~ In (EvRenderDepthToTexture m b flag)
       (events ((TangoSetupConfig ;; Render) a w)).
Proof.
  rewrite bind_run.
  destruct (value (TangoSetupConfig a w)); cbn; intros Hin.
  - apply in_app_or in Hin. destruct Hin as [Hin|Hin].
    + exact (TangoSetupConfig_does_not_draw a w m b flag Hin).
    + destruct (TangoSetupConfig_head a w) as (Hg & _).
      exact (Render_keeps_to_the_CPU_path _ _ m b flag Hg Hin).
  - exact (TangoSetupConfig_does_not_draw a w m b flag Hin).
Qed.

(** ** Intrinsics *)

(** X9. [TangoSetIntrinsicsAndExtrinsics] asks once for the colour
    camera's intrinsics.  On success the depth image and then the scene
    receive the very intrinsics the service returned, and the method
    returns true; on failure neither receives anything, one message is
    logged, the method returns false and the application is unchanged. *)
Theorem TangoSetIntrinsics_shares_the_color_intrinsics (a : App) (w : World) :
  let r := TangoSetIntrinsicsAndExtrinsics a w in
  exists err intrinsics,
    value r = Some (Z.eqb err TANGO_SUCCESS) /\
    events r =
      EvGetCameraIntrinsics TANGO_CAMERA_COLOR err intrinsics
      :: (if Z.eqb err TANGO_SUCCESS
          then [ EvDepthSetCameraIntrinsics intrinsics;
                 EvSceneSetCameraIntrinsics intrinsics ]
          else [ EvLOGE "SynchronizationApplication: Failed to get the intrinsics for the colorcamera."
                        [] ]) /\
    (Z.eqb err TANGO_SUCCESS = true \/ app' r = a).
Proof.
  unfold TangoSetIntrinsicsAndExtrinsics.
  run;
    match goal with
    | H : api_TangoService_getCameraIntrinsics _ _ = (?e, ?i, _) |- _ =>
        exists e, i
    end;
    match goal with
    | H : negb (Z.eqb _ _) = true |- _ =>
        apply (proj1 (negb_true_iff _)) in H; rewrite H
    | H : negb (Z.eqb _ _) = false |- _ =>
        apply (proj1 (negb_false_iff _)) in H; rewrite H
    end;
    (split; [reflexivity|]); (split; [reflexivity|]);
    first [left; reflexivity | right; reflexivity].
Qed.

(** ** What the operations never do *)

(** X10. A [bool] method that returns true has logged nothing: every
    message of [TangoSetupConfig], [TangoConnect] and
    [TangoSetIntrinsicsAndExtrinsics] comes with a false return. *)
Theorem true_return_means_nothing_logged (o : Op) (a : App) (w : World) :
  value (run_op o a w) = Some (Some true) ->
  logs (events (run_op o a w)) = [].
Proof.
  destruct o; unfold_methods; run; intros Hv;
    try discriminate Hv; reflexivity.
Qed.

(** X11. Only [Render] draws and only [Render] fetches a point cloud:
    every other operation makes no depth operation, no scene render and
    no fetch. *)
Theorem only_Render_draws (o : Op) (a : App) (w : World) :
  o <> OpRender ->
  render_calls (events (run_op o a w)) = [] /\
  cloud_fetches (events (run_op o a w)) = [].
Proof.
  intros Ho.
  destruct o; try (exfalso; apply Ho; reflexivity);
    unfold_methods; run; split; reflexivity.
Qed.

(** One operation never hands a null configuration to
    [TangoConfig_free]. *)
Lemma run_op_never_frees_null (o : Op) (a : App) (w : World) :
  ~ In (EvConfigFree nullptr) (events (run_op o a w)).
Proof.
  destruct o; unfold_methods; run; intros Hin; cbn in Hin;
    repeat (destruct Hin as [Hin|Hin]; [try discriminate Hin|]);
    try exact Hin;
    inversion Hin as [Hc]; rewrite Hc in *; cbn in *; discriminate.
Qed.

(** X12. In no sequence of operations is [TangoConfig_free] called on a
    null handle: the destructor, the only caller, tests the handle
    first. *)
Theorem TangoConfig_free_never_gets_null (os : list Op) :
  forall (a : App) (w : World),
    ~ In (EvConfigFree nullptr) (events (run_ops os a w)).
Proof.
  induction os as [|o os IH]; intros a w Hin; [exact Hin|].
  cbn [run_ops] in Hin. rewrite bind_run in Hin.
  destruct (value (run_op o a w)); cbn in Hin.
  - apply in_app_or in Hin. destruct Hin as [Hin|Hin].
    + exact (run_op_never_frees_null o a w Hin).
    + exact (IH _ _ Hin).
  - exact (run_op_never_frees_null o a w Hin).
Qed.

(** One operation other than the two that assign the flag leaves it. *)
Lemma run_op_keeps_gpu_upsample (o : Op) (a : App) (w : World) :
  o <> OpTangoSetupConfig ->
  (forall on, o <> OpSetGPUUpsample on) ->
  gpu_upsample_ (app' (run_op o a w)) = gpu_upsample_ a.
Proof.
  intros Hs Hg.
  destruct o;
    try (exfalso; apply Hs; reflexivity);
    try (exfalso; eapply Hg; reflexivity);
    unfold_methods; run; congruence.
Qed.

(** X13. The GPU-upsample flag changes only through [SetGPUUpsample] and
    [TangoSetupConfig]: frames, callbacks, connects and the rest keep the
    depth path that was chosen. *)
Theorem gpu_upsample_changes_only_by_its_setters (os : list Op) :
  forall (a : App) (w : World),
    (forall o, In o os ->
       o <> OpTangoSetupConfig /\ forall on, o <> OpSetGPUUpsample on) ->
    gpu_upsample_ (app' (run_ops os a w)) = gpu_upsample_ a.
Proof.
  induction os as [|o os IH]; intros a w H; [reflexivity|].
  cbn [run_ops]. rewrite bind_run.
  assert (Ho : gpu_upsample_ (app' (run_op o a w)) = gpu_upsample_ a)
    by (apply run_op_keeps_gpu_upsample; apply (H o); left; reflexivity).
  destruct (value (run_op o a w)); cbn; [|exact Ho].
  rewrite IH; [exact Ho|].
  intros o' Hin. apply H. right. exact Hin.
Qed.

(** ** The version check *)

(** X14. Lowering the required version never turns an accepted service
    into a rejected one. *)
Theorem CheckTangoVersion_antitone
    (env activity : ptr) (lo hi : Z) (a : App) (w : World) :
  lo <= hi ->
  value (CheckTangoVersion env activity hi a w) = Some true ->
  value (CheckTangoVersion env activity lo a w) = Some true.
Proof.
  intros Hle.
  unfold CheckTangoVersion. unfold_calls. unfold_monad. cbn.
  destruct (api_TangoSupport_GetTangoVersion env activity w)
    as [[err version] w1].
  cbn. intros H. injection H as H. f_equal.
  apply andb_true_iff in H. destruct H as [He Hv].
  apply Z.geb_le in Hv.
  apply andb_true_iff. split; [exact He | apply Z.geb_le; lia].
Qed.

(** ** From setup to use *)

Lemma OnXYZijAvailable_calls (xyz_ij : ptr) (a : App) (w : World) :
  events (OnXYZijAvailable xyz_ij a w) =
    [ EvUpdatePointCloud (point_cloud_manager_ a) xyz_ij
        (fst (api_TangoSupport_updatePointCloud
                (point_cloud_manager_ a) xyz_ij w)) ].
Proof. unfold OnXYZijAvailable. run. reflexivity. Qed.

Lemma Render_starts_with_the_fetch (a : App) (w : World) :
  exists e buffer n,
    hd_error (events (Render a w)) =
      Some (EvGetLatestPointCloud (point_cloud_manager_ a) e buffer n).
Proof. unfold Render. run; do 3 eexists; reflexivity. Qed.

Lemma TangoConnect_starts_with_connect (a : App) (w : World) :
  hd_error (events (TangoConnect a w)) =
    Some (EvConnect (tango_config_ a)
            (fst (api_TangoService_connect (tango_config_ a) w))).
Proof. unfold TangoConnect. run; reflexivity. Qed.

(** X15. A successful first setup, and what the later operations do with
    it.  On an object with no configuration and no point-cloud manager, a
    [TangoSetupConfig] that returns true has made exactly six API calls,
    all successful: the default configuration, the three flags set to
    true on it, the query of max_point_cloud_elements, and the creation
    of a manager of that size.  The handle and the manager it got are
    the ones the later operations use: [TangoConnect] connects with that
    configuration, the depth callback updates that manager, and a frame
    fetches from it. *)
Theorem successful_setup_is_what_later_calls_use (a : App) (w : World) :
  is_null (tango_config_ a) = true ->
  is_null (point_cloud_manager_ a) = true ->
  value (TangoSetupConfig a w) = Some true ->
  let r := TangoSetupConfig a w in
  exists config max_points manager,
    api_calls (events r) =
      [ EvGetConfig TANGO_CONFIG_DEFAULT config;
        EvSetBool config "config_enable_depth" true TANGO_SUCCESS;
        EvSetBool config "config_enable_color_camera" true TANGO_SUCCESS;
        EvSetBool config "config_enable_low_latency_imu_integration" true
          TANGO_SUCCESS;
        EvGetInt32 config "max_point_cloud_elements" TANGO_SUCCESS
          max_points;
        EvCreatePointCloudManager max_points TANGO_SUCCESS manager ] /\
    is_null config = false /\
    (forall w',
       hd_error (events (TangoConnect (app' r) w')) =
         Some (EvConnect config (fst (api_TangoService_connect config w')))) /\
    (forall xyz_ij w',
       events (OnXYZijAvailable xyz_ij (app' r) w') =
         [ EvUpdatePointCloud manager xyz_ij
             (fst (api_TangoSupport_updatePointCloud manager xyz_ij w')) ]) /\
    (forall w',
       exists e buffer n,
         hd_error (events (Render (app' r) w')) =
           Some (EvGetLatestPointCloud manager e buffer n)).
Proof.
  intros Hc Hm Hv r.
  assert (H : exists config max_points manager,
             api_calls (events r) =
               [ EvGetConfig TANGO_CONFIG_DEFAULT config;
                 EvSetBool config "config_enable_depth" true TANGO_SUCCESS;
                 EvSetBool config "config_enable_color_camera" true
                   TANGO_SUCCESS;
                 EvSetBool config "config_enable_low_latency_imu_integration"
                   true TANGO_SUCCESS;
                 EvGetInt32 config "max_point_cloud_elements" TANGO_SUCCESS
                   max_points;
                 EvCreatePointCloudManager max_points TANGO_SUCCESS manager ] /\
             is_null config = false /\
             tango_config_ (app' r) = config /\
             point_cloud_manager_ (app' r) = manager).
  { subst r. revert Hv.
    unfold TangoSetupConfig, SetDepthAlphaValue, SetGPUUpsample.
    run; intros Hv; try discriminate Hv;
      try (rewrite Hc in *; discriminate);
      try (rewrite Hm in *; discriminate);
      repeat match goal with
             | Hx : negb (Z.eqb ?t _) = false |- _ =>
                 apply (proj1 (negb_false_iff _)) in Hx;
                 apply Z.eqb_eq in Hx; subst t
             end;
      do 3 eexists; repeat split; assumption. }
  destruct H as (config & max_points & manager & Hcalls & Hnn & Hcfg & Hmgr).
  exists config, max_points, manager.
  split; [exact Hcalls|]. split; [exact Hnn|].
  split; [|split].
  - intros w'. rewrite TangoConnect_starts_with_connect, Hcfg. reflexivity.
  - intros xyz_ij w'. rewrite OnXYZijAvailable_calls, Hmgr. reflexivity.
  - intros w'. rewrite <- Hmgr. apply Render_starts_with_the_fetch.
Qed.

(** ** Messages *)

(** For a goal [exists e, (x1 = e \/ ... \/ xn = e \/ False) /\ _]: find
    the [xi] that the tactic [t] accepts. *)
Ltac pick_event D t :=
  lazymatch D with
  | (fun e => ?x = e \/ @?D' e) =>
      first [ exists x; split;
              [ repeat (first [left; reflexivity | right]) | t ]
            | pick_event D' t ]
  end.

(** X16. No operation logs without a cause: when the record of an
    operation holds a message, it also holds an API call that returned a
    status other than TANGO_SUCCESS, or a pose query whose pose is not
    valid. *)
Theorem every_message_has_a_cause (o : Op) (a : App) (w : World) :
  logs (events (run_op o a w)) <> [] ->
  exists e,
    In e (events (run_op o a w)) /\
    (status_failed e = true \/
     exists t frame ret pose,
       e = EvGetPoseAtTime t frame ret pose /\ pose_valid pose = false).
Proof.
  destruct o; unfold_methods; run; intros Hlog;
    try (exfalso; apply Hlog; reflexivity);
    match goal with
    | |- exists e, (@?D e) /\ _ =>
        pick_event D
          ltac:(first
                  [ left; unfold status_failed; cbn; assumption
                  | right; do 4 eexists; split;
                    [ reflexivity | unfold pose_valid; assumption ] ])
    end.
Qed.

End Lifecycle.

(** * Further runs on the scripted platform *)

Module LifecycleScenarios.

Import Sim.

(** the object after a first, successful setup *)
Example configured_is_set_up :
  let a := app' (TangoSetupConfig fresh healthy) in
  tango_config_ a = 64%N /\ point_cloud_manager_ a = 128%N.
Proof. split; reflexivity. Qed.

Lemma TangoSetupConfig_retry_after_failure_witness :
  let w := failing "config_enable_depth" (-1) healthy in
  let r1 := TangoSetupConfig fresh w in
  let r2 := TangoSetupConfig (app' r1) (world' r1) in
  (In (EvGetConfig 0 64%N) (events r1) /\ is_null 64%N = false) /\
  value r1 = Some false /\
  tango_config_ (app' r1) = 64%N /\
  value r2 = Some true /\
  api_calls (events r2) = [].
Proof.
  intros w r1 r2.
  split; [split; [right; left; reflexivity | reflexivity]|].
  split; [reflexivity|].
  apply (@TangoSetupConfig_retry_after_failure platform fresh w 0 64%N).
  - right; left; reflexivity.
  - reflexivity.
Defined.

Lemma tango_config_is_set_once_witness :
  let a := app' (TangoSetupConfig fresh healthy) in
  let os := [OpTangoSetupConfig; OpRender; OpDestructor; OpTangoSetupConfig] in
  is_null (tango_config_ a) = false /\
  tango_config_ (app' (run_ops os a (without_config healthy))) = 64%N.
Proof.
  intros a os.
  split; [reflexivity|].
  rewrite (@tango_config_is_set_once platform os a (without_config healthy)
             eq_refl).
  reflexivity.
Defined.

Lemma point_cloud_manager_is_created_once_witness :
  let a := app' (TangoSetupConfig fresh healthy) in
  let os := [OpTangoSetupConfig; OpRender; OpOnXYZijAvailable 512%N] in
  (~ In OpDestructor os /\ is_null (point_cloud_manager_ a) = false) /\
  point_cloud_manager_ (app' (run_ops os a healthy)) = 128%N.
Proof.
  intros a os.
  assert (Hd : ~ In OpDestructor os).
  { intros [H|[H|[H|H]]]; try discriminate H; exact H. }
  split; [split; [exact Hd | reflexivity]|].
  rewrite (@point_cloud_manager_is_created_once platform os a healthy
             Hd eq_refl).
  reflexivity.
Defined.

Lemma Render_dies_or_makes_four_api_calls_witness :
  let w := failing "TangoSupport_getLatestPointCloudAndNewDataFlag" (-1)
             healthy in
  api_TangoSupport_getLatestPointCloudAndNewDataFlag
    (point_cloud_manager_ fresh) (render_buffer_ fresh) false w
    = ((-1, nullptr, false), without_new_data w) /\
  value (Render fresh w) = None /\
  events (Render fresh w) = [ EvGetLatestPointCloud 0%N (-1) 0%N false ] /\
  value (Render fresh healthy) = Some tt.
Proof.
  intros w.
  split; [reflexivity|].
  destruct (@Render_dies_or_makes_four_api_calls platform fresh w
              (without_new_data w) (-1) nullptr false eq_refl)
    as (Hdead & Hnull).
  destruct (@Render_dies_or_makes_four_api_calls platform fresh healthy
              (without_new_data healthy) 0 256%N true eq_refl)
    as ((Hreturns & _) & _).
  split; [exact (Hnull eq_refl)|].
  split; [|exact Hreturns].
  change (Render fresh w =
            {| value := None;
               app' := set_render_buffer_ nullptr fresh;
               world' := without_new_data w;
               events := [EvGetLatestPointCloud 0%N (-1) 0%N false] |})
    in Hdead.
  rewrite Hdead. reflexivity.
Defined.

Lemma Render_changes_only_the_render_state_witness :
  let w := with_pose_status 1 2 healthy in
  let r := Render fresh w in
  render_calls (events r) = [] /\
  render_buffer_ (app' r) = 256%N /\
  depth_image_ (app' r) = depth_image_ fresh /\
  main_scene_ (app' r) = main_scene_ fresh.
Proof.
  intros w r.
  destruct (@Render_changes_only_the_render_state platform fresh w)
    as (_ & _ & Hskip).
  split; [reflexivity|].
  split; [reflexivity | exact (Hskip eq_refl)].
Defined.

Lemma Render_reports_the_invalid_pose_witness :
  let w := with_pose_status 2 2 healthy in
  (api_TangoSupport_getLatestPointCloudAndNewDataFlag
     (point_cloud_manager_ fresh) (render_buffer_ fresh) false w
     = ((0, 256%N, true), without_new_data w) /\
   XYZij_timestamp 256%N (without_new_data w) = Some 1000) /\
  hd_error (rev (events (Render fresh w))) =
    Some (EvLOGE "Invalid pose for ss_t_color at time: %lf" [LogDouble 1033]).
Proof.
  intros w.
  split; [split; reflexivity|].
  destruct (@Render_reports_the_invalid_pose platform fresh w
              (without_new_data w) 0 256%N true 1000 eq_refl eq_refl)
    as (t1 & pd & pc & Hq & [Hv | Hlast]).
  - vm_compute in Hq. inversion Hq. subst t1 pd pc. discriminate Hv.
  - vm_compute in Hq. inversion Hq. subst t1 pd pc. exact Hlast.
Defined.

Lemma true_return_means_nothing_logged_witness :
  value (run_op OpTangoSetupConfig fresh healthy) = Some (Some true) /\
  logs (events (run_op OpTangoSetupConfig fresh healthy)) = [].
Proof.
  split; [reflexivity|].
  apply (@true_return_means_nothing_logged platform
           OpTangoSetupConfig fresh healthy).
  reflexivity.
Defined.

Lemma only_Render_draws_witness :
  OpTangoSetIntrinsicsAndExtrinsics <> OpRender /\
  render_calls
    (events (run_op OpTangoSetIntrinsicsAndExtrinsics fresh healthy)) = [] /\
  cloud_fetches
    (events (run_op OpTangoSetIntrinsicsAndExtrinsics fresh healthy)) = [].
Proof.
  assert (Hne : @OpTangoSetIntrinsicsAndExtrinsics platform <> OpRender)
    by discriminate.
  split; [exact Hne|].
  apply (@only_Render_draws platform OpTangoSetIntrinsicsAndExtrinsics
           fresh healthy Hne).
Defined.

Lemma gpu_upsample_changes_only_by_its_setters_witness :
  let a := app' (SetGPUUpsample true fresh healthy) in
  let os :=
    [ OpRender; OpOnXYZijAvailable 512%N; OpSetViewPort 640 480; OpRender ] in
  (forall o, In o os ->
     o <> OpTangoSetupConfig /\ forall on, o <> OpSetGPUUpsample on) /\
  gpu_upsample_ (app' (run_ops os a healthy)) = true.
Proof.
  intros a os.
  assert (H : forall o, In o os ->
            o <> OpTangoSetupConfig /\ forall on, o <> OpSetGPUUpsample on).
  { intros o [<-|[<-|[<-|[<-|[]]]]]; split; try discriminate;
      intros on; discriminate. }
  split; [exact H|].
  rewrite (@gpu_upsample_changes_only_by_its_setters platform os a healthy H).
  reflexivity.
Defined.

Lemma every_message_has_a_cause_witness :
  let w := with_pose_status 1 2 healthy in
  logs (events (run_op OpRender fresh w)) <> [] /\
  exists e,
    In e (events (run_op OpRender fresh w)) /\
    (status_failed e = true \/
     exists t frame ret pose,
       e = EvGetPoseAtTime t frame ret pose /\ pose_valid pose = false).
Proof.
  intros w.
  assert (Hlog : logs (events (run_op OpRender fresh w)) <> [])
    by discriminate.
  split; [exact Hlog|].
  exact (@every_message_has_a_cause platform OpRender fresh w Hlog).
Defined.

Lemma CheckTangoVersion_antitone_witness :
  9000 <= 9377 /\
  value (CheckTangoVersion 1%N 2%N 9377 fresh healthy) = Some true /\
  value (CheckTangoVersion 1%N 2%N 9000 fresh healthy) = Some true.
Proof.
  assert (Hle : 9000 <= 9377) by lia.
  split; [exact Hle|]. split; [reflexivity|].
  apply (@CheckTangoVersion_antitone platform 1%N 2%N 9000 9377
           fresh healthy Hle).
  reflexivity.
Defined.

Lemma successful_setup_is_what_later_calls_use_witness :
  let r := TangoSetupConfig fresh healthy in
  (is_null (tango_config_ fresh) = true /\
   is_null (point_cloud_manager_ fresh) = true /\
   value r = Some true) /\
  events (OnXYZijAvailable 512%N (app' r) healthy) =
    [ EvUpdatePointCloud 128%N 512%N 0 ] /\
  hd_error (events (TangoConnect (app' r) healthy)) =
    Some (EvConnect 64%N 0).
Proof.
  intros r.
  split; [repeat split|].
  destruct (@successful_setup_is_what_later_calls_use platform fresh healthy
              eq_refl eq_refl eq_refl)
    as (config & max_points & manager & Hcalls & _ & Hconnect & Hupdate & _).
  vm_compute in Hcalls.
  inversion Hcalls. subst config manager.
  split.
  - rewrite Hupdate. reflexivity.
  - rewrite Hconnect. reflexivity.
Defined.

End LifecycleScenarios.
